(** * ai-task-manager: the language-understanding engine of [src/services/ai_service.py]

    A shallow embedding of the deterministic extractor (keyword lexicons,
    priority and tag inference, relative date and time-of-day resolution,
    title cleanup) and of the provider orchestrator ([AIService]), followed
    by the properties of the specification that concern them.

    Conventions of the embedding:
    - a Python [str] is the list of its Unicode code points ([str]);
      literals are written as UTF-8 text and decoded by [u];
    - the tables of the interpreter that the code consults ([str.lower],
      [str.isspace], the regex classes [\d], [\w], caseless comparison,
      [datetime.isoformat], [str] of a list) are the fields of the class
      [Builtins]; [cpython_tables] is an instance that follows CPython on
      ASCII and on the CJK text the lexicons are written in;
    - exceptions are the [Raise] results of [outcome]; the logger is the
      trace of [event]s an orchestrator call leaves behind;
    - [datetime.now()] is the argument [now] of the functions that read the
      clock.  *)

From Stdlib Require Import ZArith NArith List Bool Ascii String Lia.
From stdpp Require Import base option list gmap strings.

Local Open Scope Z_scope.

(** ** Strings as code points *)

Definition cp := N.
Abbreviation str := (list cp).

(** UTF-8 decoding of a source literal ([need] continuation bytes still
    expected, [acc] the bits read so far). *)
Fixpoint utf8_go (bs : list N) (need : nat) (acc : N) : str :=
  match bs with
  | [] => []
  | b :: bs' =>
      match need with
      | O =>
          if (b <? 128)%N then b :: utf8_go bs' 0 0%N
          else if (b <? 224)%N then utf8_go bs' 1 (N.land b 31)
          else if (b <? 240)%N then utf8_go bs' 2 (N.land b 15)
          else utf8_go bs' 3 (N.land b 7)
      | S n =>
          let acc' := (acc * 64 + N.land b 63)%N in
          match n with
          | O => acc' :: utf8_go bs' 0 0%N
          | S _ => utf8_go bs' n acc'
          end
      end
  end.

Definition u (s : string) : str :=
  utf8_go (map N_of_ascii (list_ascii_of_string s)) 0 0%N.

(** [w in s] for strings: [w] occurs in [s] as a contiguous run. *)
Fixpoint starts_with (w s : str) : bool :=
  match w, s with
  | [], _ => true
  | _ :: _, [] => false
  | a :: w', b :: s' => (a =? b)%N && starts_with w' s'
  end.

Fixpoint contains (w s : str) : bool :=
  starts_with w s ||
  match s with
  | [] => false
  | _ :: s' => contains w s'
  end.

(** [any(word in content for word in words)] *)
Definition any_in (words : list str) (content : str) : bool :=
  existsb (fun word => contains word content) words.

(** The mathematical reading of [w in s]. *)
Definition Substring (w s : str) : Prop := exists a b, s = a ++ w ++ b.

(** ** Dates *)

(** A naive [datetime]: the proleptic Gregorian ordinal of its date
    ([date.toordinal()], day 1 is Monday 0001-01-01) and its time fields.
    The clock readings [now] the code works from are far from
    [datetime.max], so day arithmetic is plain addition. *)
Record datetime := mkDatetime {
  dt_day : Z;
  dt_hour : Z;
  dt_minute : Z;
  dt_second : Z;
  dt_microsecond : Z
}.

(** [d + timedelta(days=n)] *)
Definition add_days (d : datetime) (n : Z) : datetime :=
  mkDatetime (dt_day d + n) (dt_hour d) (dt_minute d) (dt_second d) (dt_microsecond d).

(** [d.weekday()], Monday is 0 *)
Definition weekday (d : datetime) : Z := (dt_day d + 6) mod 7.

(** ** Exceptions *)

Inductive exn :=
| ValueError
| IndexError
| ProviderFailure (msg : string).

Inductive outcome (A : Type) :=
| Ok (a : A)
| Raise (e : exn).
Arguments Ok {A} a.
Arguments Raise {A} e.

Definition obind {A B} (m : outcome A) (f : A -> outcome B) : outcome B :=
  match m with
  | Ok a => f a
  | Raise e => Raise e
  end.

(** [d.replace(hour=h, minute=m, second=0, microsecond=0)]: the constructor
    of [datetime] rejects fields out of range. *)
Definition replace_time (d : datetime) (h m : Z) : outcome datetime :=
  if (0 <=? h) && (h <=? 23) && (0 <=? m) && (m <=? 59)
  then Ok (mkDatetime (dt_day d) h m 0 0)
  else Raise ValueError.

(** ** Interpreter tables *)

Definition is_ascii (c : cp) : bool := (c <? 128)%N.

Definition ascii_lower (c : cp) : cp :=
  if (65 <=? c)%N && (c <=? 90)%N then (c + 32)%N else c.

Definition ascii_isspace (c : cp) : bool :=
  (9 <=? c)%N && (c <=? 13)%N || (28 <=? c)%N && (c <=? 32)%N.

Class Builtins := {
  (** [s.lower()] *)
  py_lower : str -> str;
  (** [c.isspace()], which is also the regex class [\s] *)
  py_isspace : cp -> bool;
  (** the regex class [\d] and the digit value [int] reads *)
  py_decimal : cp -> option Z;
  (** the regex class [\w] *)
  py_isword : cp -> bool;
  (** equality of a pattern character and a text character under
      [re.IGNORECASE] *)
  py_caseless : cp -> cp -> bool;
  (** [d.isoformat()] *)
  py_isoformat : datetime -> str;
  (** [str(l)] for a list of strings *)
  py_repr_list : list str -> str;
  (** what the tables are on ASCII *)
  py_lower_ascii : forall s,
    forallb is_ascii s = true -> py_lower s = map ascii_lower s;
  py_isspace_ascii : forall c,
    is_ascii c = true -> py_isspace c = ascii_isspace c
}.

(** ** Regular expressions

    The fragment of Python's [re] the module uses: literals and classes,
    [\d], [\s], [\b], greedy [?] and [*], alternation and numbered groups,
    matched by backtracking with the priorities of [re] (left alternative
    first, longest repetition first). *)

Inductive charset :=
| CLit (c : cp)
| CSet (l : list cp)
| CDigit
| CSpace.

Inductive regex :=
| Eps
| Chr (cs : charset)
| Star (cs : charset)
| WordB
| Cat (r1 r2 : regex)
| Alt (r1 r2 : regex)
| Opt (r : regex)
| Group (n : nat) (r : regex).

(** The groups closed so far, latest first. *)
Abbreviation captures := (list (nat * str)).

(** A match object: [group(0)], the text after [end()], the groups. *)
Record rematch := mkMatch {
  m_text : str;
  m_rest : str;
  m_groups : captures
}.

Fixpoint seq_of (rs : list regex) : regex :=
  match rs with
  | [] => Eps
  | [r] => r
  | r :: rs' => Cat r (seq_of rs')
  end.

Fixpoint alt_of (rs : list regex) : regex :=
  match rs with
  | [] => Eps
  | [r] => r
  | r :: rs' => Alt r (alt_of rs')
  end.

(** A literal run of characters. *)
Definition lit (s : str) : regex := seq_of (map (fun c => Chr (CLit c)) s).

(** An alternation of literal words, [w1|w2|...]. *)
Definition words (ws : list string) : regex := alt_of (map (fun w => lit (u w)) ws).

Definition re_digit : regex := Chr CDigit.
(** [\d{1,2}] *)
Definition re_d12 : regex := Cat re_digit (Opt re_digit).
(** [\s*] and [\s+] *)
Definition re_ws : regex := Star CSpace.
Definition re_ws1 : regex := Cat (Chr CSpace) (Star CSpace).

Section Matching.
Context `{B : Builtins}.

Definition char_eq (ic : bool) (p c : cp) : bool :=
  if ic then py_caseless p c else (p =? c)%N.

Definition cs_match (ic : bool) (cs : charset) (c : cp) : bool :=
  match cs with
  | CLit p => char_eq ic p c
  | CSet l => existsb (fun p => char_eq ic p c) l
  | CDigit => match py_decimal c with Some _ => true | None => false end
  | CSpace => py_isspace c
  end.

(** [\b] lies between a word character and a non-word character or an
    end of the string. *)
Definition word_before (prev : option cp) : bool :=
  match prev with
  | Some c => py_isword c
  | None => false
  end.

Definition word_after (s : str) : bool :=
  match s with
  | c :: _ => py_isword c
  | [] => false
  end.

Fixpoint star_run {R} (p : cp -> bool) (prev : option cp) (s : str) (caps : captures)
    (k : option cp -> str -> captures -> option R) : option R :=
  match s with
  | c :: s' =>
      if p c then
        match star_run p (Some c) s' caps k with
        | Some x => Some x
        | None => k prev s caps
        end
      else k prev s caps
  | [] => k prev s caps
  end.

(** [rmatch ic r prev s caps k]: match [r] at the position whose preceding
    character is [prev] and whose remaining text is [s], then continue
    with [k]; [None] makes the matcher backtrack. *)
Fixpoint rmatch {R} (ic : bool) (r : regex) (prev : option cp) (s : str) (caps : captures)
    (k : option cp -> str -> captures -> option R) : option R :=
  match r with
  | Eps => k prev s caps
  | Chr cs =>
      match s with
      | c :: s' => if cs_match ic cs c then k (Some c) s' caps else None
      | [] => None
      end
  | Star cs => star_run (cs_match ic cs) prev s caps k
  | WordB => if xorb (word_before prev) (word_after s) then k prev s caps else None
  | Cat r1 r2 =>
      rmatch ic r1 prev s caps (fun prev' s' caps' => rmatch ic r2 prev' s' caps' k)
  | Alt r1 r2 =>
      match rmatch ic r1 prev s caps k with
      | Some x => Some x
      | None => rmatch ic r2 prev s caps k
      end
  | Opt r1 =>
      match rmatch ic r1 prev s caps k with
      | Some x => Some x
      | None => k prev s caps
      end
  | Group n r1 =>
      rmatch ic r1 prev s caps
        (fun prev' s' caps' =>
           k prev' s' ((n, take (length s - length s') s) :: caps'))
  end.

Definition match_at (ic : bool) (r : regex) (prev : option cp) (s : str) : option rematch :=
  rmatch ic r prev s []
    (fun _ s' caps => Some (mkMatch (take (length s - length s') s) s' caps)).

(** [re.search]: the leftmost position with a match. *)
Fixpoint search_from (ic : bool) (r : regex) (prev : option cp) (s : str) : option rematch :=
  match match_at ic r prev s with
  | Some m => Some m
  | None =>
      match s with
      | c :: s' => search_from ic r (Some c) s'
      | [] => None
      end
  end.

Definition re_search (ic : bool) (r : regex) (s : str) : option rematch :=
  search_from ic r None s.

(** [m.group(n)], [None] for a group that took no part in the match. *)
Definition group (m : rematch) (n : nat) : option str :=
  snd <$> List.find (fun p => Nat.eqb (fst p) n) (m_groups m).

(** [re.sub(r, repl, s)] for a literal replacement: matches are replaced
    left to right without overlap; [skip] counts the characters of the
    current match still to drop.  None of the module's patterns matches the
    empty string; a position with an empty match gets [repl] and keeps its
    character. *)
Fixpoint sub_from (ic : bool) (r : regex) (repl : str) (prev : option cp) (s : str)
    (skip : nat) : str :=
  match skip with
  | S n =>
      match s with
      | c :: s' => sub_from ic r repl (Some c) s' n
      | [] => []
      end
  | O =>
      match match_at ic r prev s with
      | Some m =>
          repl ++
          match s with
          | c :: s' =>
              match length (m_text m) with
              | O => c :: sub_from ic r repl (Some c) s' 0
              | S n => sub_from ic r repl (Some c) s' n
              end
          | [] => []
          end
      | None =>
          match s with
          | c :: s' => c :: sub_from ic r repl (Some c) s' 0
          | [] => []
          end
      end
  end.

Definition re_sub (ic : bool) (r : regex) (repl : str) (s : str) : str :=
  sub_from ic r repl None s 0.

(** [s.strip()] *)
Fixpoint lstrip (s : str) : str :=
  match s with
  | c :: s' => if py_isspace c then lstrip s' else s
  | [] => []
  end.

Definition strip (s : str) : str := rev (lstrip (rev (lstrip s))).

(** [int(s)] for a run of decimal digits *)
Definition int_of (s : str) : Z :=
  fold_left (fun acc c => 10 * acc + default 0 (py_decimal c)) s 0.

End Matching.

(** ** Keyword lexicons and patterns *)

Inductive TaskPriority := LOW | MEDIUM | HIGH.

(** [p.value] *)
Definition priority_value (p : TaskPriority) : str :=
  match p with
  | LOW => u "low"
  | MEDIUM => u "medium"
  | HIGH => u "high"
  end.

Definition work_keywords : list str := map u
  ["工作"; "项目"; "报告"; "会议"; "任务"; "项目"; "代码"; "审查"; "开发"; "设计";
   "work"; "project"; "report"; "meeting"; "task"; "code"; "review"; "develop"; "development";
   "design"; "implement"; "implementation"; "bug"; "fix"; "feature"; "deploy"; "deployment";
   "test"; "testing"; "document"; "documentation"; "plan"; "planning"; "analysis"].

Definition study_keywords : list str := map u
  ["学习"; "课程"; "作业"; "考试"; "培训"; "教程";
   "learn"; "study"; "course"; "homework"; "exam"; "test"; "training"; "tutorial"].

Definition shopping_keywords : list str := map u
  ["购物"; "买"; "超市"; "商店"; "采购";
   "shopping"; "buy"; "purchase"; "shop"; "grocery"; "store"].

Definition health_keywords : list str := map u
  ["健康"; "运动"; "锻炼"; "医院"; "医生"; "健身";
   "health"; "exercise"; "workout"; "hospital"; "doctor"; "fitness"; "gym"].

Definition personal_keywords : list str := map u
  ["个人"; "生活"; "家庭"; "朋友"; "社交";
   "personal"; "life"; "family"; "friend"; "social"; "home"].

Definition finance_keywords : list str := map u
  ["财务"; "账单"; "支付"; "银行"; "投资";
   "finance"; "bill"; "payment"; "bank"; "investment"; "money"].

Definition travel_keywords : list str := map u
  ["旅行"; "旅游"; "出差"; "航班"; "酒店";
   "travel"; "trip"; "flight"; "hotel"; "vacation"; "journey"].

Definition high_keywords : list str := map u
  ["紧急"; "重要"; "很重要"; "尽快"; "立即"; "必须"; "优先级高"; "高优先级";
   "urgent"; "important"; "critical"; "asap"; "as soon as possible"; "high priority";
   "priority high"].

Definition low_keywords : list str := map u
  ["不急"; "有空"; "随意"; "休闲"; "优先级低"; "低优先级";
   "low priority"; "priority low"; "whenever"; "optional"; "leisure"].

Definition weekday_map : list (cp * Z) :=
  combine (u "一二三四五六日天") [0; 1; 2; 3; 4; 5; 6; 6].

Definition weekday_map_en : list (str * Z) :=
  [(u "monday", 0); (u "tuesday", 1); (u "wednesday", 2); (u "thursday", 3);
   (u "friday", 4); (u "saturday", 5); (u "sunday", 6);
   (u "mon", 0); (u "tue", 1); (u "wed", 2); (u "thu", 3);
   (u "fri", 4); (u "sat", 5); (u "sun", 6)].

(** The patterns of [_parse_time_hint] and [_parse_relative_date]. *)

(** [(\d{1,2})\s*(?:pm|p\.m\.)] *)
Definition pm_pattern : regex :=
  seq_of [Group 1 re_d12; re_ws; words ["pm"; "p.m."]].

(** [(\d{1,2})\s*(?:am|a\.m\.)] *)
Definition am_pattern : regex :=
  seq_of [Group 1 re_d12; re_ws; words ["am"; "a.m."]].

(** [(\d{1,2}):(\d{2})] *)
Definition time_pattern : regex :=
  seq_of [Group 1 re_d12; lit (u ":"); Group 2 (Cat re_digit re_digit)].

(** [(上午|下午|晚上)?\s*(\d{1,2})点] *)
Definition zh_time_pattern : regex :=
  seq_of [Opt (Group 1 (words ["上午"; "下午"; "晚上"])); re_ws; Group 2 re_d12; lit (u "点")].

(** [(本周|下周)[一二三四五六日天]] *)
Definition zh_week_pattern : regex :=
  Cat (Group 1 (words ["本周"; "下周"])) (Chr (CSet (u "一二三四五六日天"))).

(** [it\'?s] *)
Definition re_its : regex := seq_of [lit (u "it"); Opt (lit (u "'")); lit (u "s")].

(** [(?:am|pm)?] *)
Definition re_ampm_opt : regex := Opt (words ["am"; "pm"]).

(** [cleanup_patterns], in the order of the source.  The groups of these
    patterns are never read, so they are plain parentheses here. *)
Definition cleanup_patterns : list regex :=
  [ (* 今天|明天|后天|本周[一二三四五六日天]|下周[一二三四五六日天] *)
    alt_of [lit (u "今天"); lit (u "明天"); lit (u "后天");
            Cat (lit (u "本周")) (Chr (CSet (u "一二三四五六日天")));
            Cat (lit (u "下周")) (Chr (CSet (u "一二三四五六日天")))];
    (* \b(today|tomorrow|day after tomorrow|next (monday|...|sunday|week))\b *)
    seq_of [WordB;
            alt_of [lit (u "today"); lit (u "tomorrow"); lit (u "day after tomorrow");
                    Cat (lit (u "next "))
                        (words ["monday"; "tuesday"; "wednesday"; "thursday"; "friday";
                                "saturday"; "sunday"; "week"])];
            WordB];
    (* (上午|下午|晚上)?\s*\d{1,2}点 *)
    seq_of [Opt (words ["上午"; "下午"; "晚上"]); re_ws; re_d12; lit (u "点")];
    (* \b\d{1,2}\s*(?:am|pm|a\.m\.|p\.m\.)\b *)
    seq_of [WordB; re_d12; re_ws; words ["am"; "pm"; "a.m."; "p.m."]; WordB];
    (* \b\d{1,2}:\d{2}\s*(?:am|pm)?\b *)
    seq_of [WordB; re_d12; lit (u ":"); re_digit; re_digit; re_ws; re_ampm_opt; WordB];
    (* \bat\s+\d{1,2}\s*(?:am|pm)?\b *)
    seq_of [WordB; lit (u "at"); re_ws1; re_d12; re_ws; re_ampm_opt; WordB];
    (* 优先级高|高优先级|很重要|紧急|尽快|优先级低|低优先级|不急|有空再 *)
    words ["优先级高"; "高优先级"; "很重要"; "紧急"; "尽快"; "优先级低"; "低优先级"; "不急"; "有空再"];
    (* \b(urgent|important|critical|asap|high priority|low priority|priority (high|low))\b *)
    seq_of [WordB;
            alt_of [lit (u "urgent"); lit (u "important"); lit (u "critical"); lit (u "asap");
                    lit (u "high priority"); lit (u "low priority");
                    Cat (lit (u "priority ")) (words ["high"; "low"])];
            WordB];
    (* \b(it\'?s\s+)?(very\s+)?(important|urgent)\b *)
    seq_of [WordB; Opt (Cat re_its re_ws1); Opt (Cat (lit (u "very")) re_ws1);
            words ["important"; "urgent"]; WordB];
    (* \b(remind me to|remember to|don\'?t forget to|make sure to)\b *)
    seq_of [WordB;
            alt_of [lit (u "remind me to"); lit (u "remember to");
                    seq_of [lit (u "don"); Opt (lit (u "'")); lit (u "t forget to")];
                    lit (u "make sure to")];
            WordB];
    (* \b(to|at|in|on|for|with|by)\s+(it\'?s|the|a|an|this|that)\b *)
    seq_of [WordB; words ["to"; "at"; "in"; "on"; "for"; "with"; "by"]; re_ws1;
            alt_of [re_its; lit (u "the"); lit (u "a"); lit (u "an"); lit (u "this");
                    lit (u "that")];
            WordB];
    (* \b(it\'?s|that\'?s|this is)\s+(important|urgent|critical)\b *)
    seq_of [WordB;
            alt_of [re_its; seq_of [lit (u "that"); Opt (lit (u "'")); lit (u "s")];
                    lit (u "this is")];
            re_ws1; words ["important"; "urgent"; "critical"]; WordB];
    (* [，,。.!！] *)
    Chr (CSet (u "，,。.!！")) ].

(** [\b(at|in|on|for|with|by|to)\s+(it\'?s|the|a|an|this|that)\b] *)
Definition connective_pattern : regex :=
  seq_of [WordB; words ["at"; "in"; "on"; "for"; "with"; "by"; "to"]; re_ws1;
          alt_of [re_its; lit (u "the"); lit (u "a"); lit (u "an"); lit (u "this");
                  lit (u "that")];
          WordB].

(** ** The deterministic extractor *)

Fixpoint str_eqb (a b : str) : bool :=
  match a, b with
  | [], [] => true
  | x :: a', y :: b' => (x =? y)%N && str_eqb a' b'
  | _, _ => false
  end.

(** [s in l] for a list of strings *)
Definition str_in (s : str) (l : list str) : bool := existsb (str_eqb s) l.

(** [description or ''] *)
Definition or_empty (description : option str) : str :=
  match description with
  | Some s => s
  | None => []
  end.

(** The values a task dictionary holds. *)
Inductive pyval :=
| PNone
| PStr (s : str)
| PList (l : list str).

Definition is_nil {A} (l : list A) : bool :=
  match l with
  | [] => true
  | _ :: _ => false
  end.

Section Extractor.
Context `{B : Builtins}.

Definition py_truthy (v : pyval) : bool :=
  match v with
  | PNone => false
  | PStr s => negb (is_nil s)
  | PList l => negb (is_nil l)
  end.

Definition py_str (v : pyval) : str :=
  match v with
  | PNone => u "None"
  | PStr s => s
  | PList l => py_repr_list l
  end.

(** [f"{title} {description or ''}".lower()] *)
Definition content_of (title : str) (description : option str) : str :=
  py_lower (title ++ u " " ++ or_empty description).

Definition _get_fallback_tags (title : str) (description : option str) : list str :=
  let content := content_of title description in
  let simple_tags : list str := [] in
  let simple_tags :=
    if any_in work_keywords content then
      if any_in (map u ["meeting"; "会议"; "conference"; "call"]) content
      then simple_tags ++ [u "Meeting"]
      else if any_in (map u ["code"; "代码"; "programming"; "program"; "coding"]) content
      then simple_tags ++ [u "Code"]
      else if any_in (map u ["review"; "审查"; "check"; "检查"]) content
      then simple_tags ++ [u "Review"]
      else if any_in (map u ["project"; "项目"]) content
      then simple_tags ++ [u "Project"]
      else if any_in (map u ["report"; "报告"]) content
      then simple_tags ++ [u "Report"]
      else simple_tags ++ [u "Work"]
    else simple_tags in
  let simple_tags :=
    if any_in study_keywords content then simple_tags ++ [u "Study"] else simple_tags in
  let simple_tags :=
    if any_in shopping_keywords content then simple_tags ++ [u "Shopping"] else simple_tags in
  let simple_tags :=
    if any_in health_keywords content then simple_tags ++ [u "Health"] else simple_tags in
  let simple_tags :=
    if any_in personal_keywords content then simple_tags ++ [u "Personal"] else simple_tags in
  let simple_tags :=
    if any_in finance_keywords content then simple_tags ++ [u "Finance"] else simple_tags in
  let simple_tags :=
    if any_in travel_keywords content then simple_tags ++ [u "Travel"] else simple_tags in
  let simple_tags :=
    if is_nil simple_tags then
      if contains (u "meeting") content || contains (u "会议") content
      then simple_tags ++ [u "Meeting"]
      else if contains (u "code") content || contains (u "代码") content
      then simple_tags ++ [u "Code"]
      else if contains (u "review") content || contains (u "审查") content
      then simple_tags ++ [u "Review"]
      else simple_tags ++ [u "Work"]
    else simple_tags in
  if is_nil simple_tags then [u "Other"] else take 3 simple_tags.

Definition _get_fallback_priority (title : str) (description : option str)
    : TaskPriority * str :=
  let content := content_of title description in
  if any_in high_keywords content
  then (HIGH, u "Based on keywords: contains urgent/important words")
  else if any_in low_keywords content
  then (LOW, u "Based on keywords: contains low priority words")
  else (MEDIUM, u "Based on keywords: default medium priority").

Definition _normalize_priority (value : pyval) : option str :=
  if negb (py_truthy value) then None
  else
    let normalized := py_lower (strip (py_str value)) in
    if str_in normalized (map u ["high"; "h"; "高"; "高优先级"; "优先级高"]) then Some (u "high")
    else if str_in normalized (map u ["medium"; "med"; "中"; "中优先级"; "优先级中"])
    then Some (u "medium")
    else if str_in normalized (map u ["low"; "l"; "低"; "低优先级"; "优先级低"]) then Some (u "low")
    else if contains (u "高") normalized then Some (u "high")
    else if contains (u "低") normalized then Some (u "low")
    else if contains (u "中") normalized then Some (u "medium")
    else Some normalized.

(** [m.group(n)] read as a number; the groups read this way take part in
    every match of their pattern. *)
Definition int_group (m : rematch) (n : nat) : Z := int_of (default [] (group m n)).

Definition _parse_time_hint (text : str) : option (Z * Z) :=
  let text_lower := py_lower text in
  let pm_match := re_search false pm_pattern text_lower in
  let am_match := re_search false am_pattern text_lower in
  let time_match := re_search false time_pattern text_lower in
  match pm_match, am_match, time_match with
  | Some m, _, _ =>
      let hour := int_group m 1 in
      let hour := if hour <? 12 then hour + 12 else hour in
      Some (hour, 0)
  | None, Some m, _ =>
      let hour := int_group m 1 in
      let hour := if hour =? 12 then 0 else hour in
      Some (hour, 0)
  | None, None, Some m =>
      let hour := int_group m 1 in
      let minute := int_group m 2 in
      let after := take 10 (m_rest m) in
      let hour :=
        if contains (u "pm") after then (if hour <? 12 then hour + 12 else hour)
        else if contains (u "am") after then (if hour =? 12 then 0 else hour)
        else hour in
      Some (hour, minute)
  | None, None, None =>
      match re_search false zh_time_pattern text with
      | Some m =>
          let period := default [] (group m 1) in
          let hour := int_group m 2 in
          let hour :=
            if str_in period (map u ["下午"; "晚上"]) && (hour <? 12) then hour + 12
            else if is_nil period && (hour <=? 12)
            then (if hour <? 12 then hour + 12 else hour)
            else hour in
          Some (hour, 0)
      | None => None
      end
  end.

(** The [base] date of [_parse_relative_date]; [None] when the text has no
    relative-date cue. *)
Definition relative_base (now : datetime) (text : str) : outcome (option datetime) :=
  let text_lower := py_lower text in
  let has w := contains (u w) text_lower in
  if contains (u "今天") text || has "today" then Ok (Some now)
  else if contains (u "明天") text || has "tomorrow" then Ok (Some (add_days now 1))
  else if contains (u "后天") text || has "day after tomorrow" then Ok (Some (add_days now 2))
  else if has "next" then
    match List.find (fun entry => contains (fst entry) text_lower) weekday_map_en with
    | Some (_, day_num) =>
        let current_weekday := weekday now in
        let delta := (day_num - current_weekday + 7) mod 7 in
        let delta := if delta =? 0 then 7 else delta in
        Ok (Some (add_days now delta))
    | None =>
        if has "monday" || has "mon" then Ok (Some (add_days now (7 - weekday now)))
        else if has "tuesday" || has "tue" then Ok (Some (add_days now (8 - weekday now)))
        else if has "wednesday" || has "wed" then Ok (Some (add_days now (9 - weekday now)))
        else if has "thursday" || has "thu" then Ok (Some (add_days now (10 - weekday now)))
        else if has "friday" || has "fri" then Ok (Some (add_days now (11 - weekday now)))
        else if has "saturday" || has "sat" then Ok (Some (add_days now (12 - weekday now)))
        else if has "sunday" || has "sun" then Ok (Some (add_days now (13 - weekday now)))
        else Ok None
    end
  else
    match re_search false zh_week_pattern text with
    | Some m =>
        let week_flag := default [] (group m 1) in
        match m_text m !! 2%nat with
        | None => Raise IndexError
        | Some target_char =>
            match snd <$> List.find (fun entry => (fst entry =? target_char)%N) weekday_map with
            | Some target_weekday =>
                let current_weekday := weekday now in
                let delta :=
                  if str_eqb week_flag (u "本周") then
                    let delta := target_weekday - current_weekday in
                    if delta <? 0 then delta + 7 else delta
                  else (target_weekday - current_weekday) + 7 in
                Ok (Some (add_days now delta))
            | None => Ok None
            end
        end
    | None => Ok None
    end.

Definition _parse_relative_date (now : datetime) (text : str) : outcome (option datetime) :=
  obind (relative_base now text) (fun base =>
    match base with
    | None => Ok None
    | Some base =>
        match _parse_time_hint text with
        | Some (hour, minute) => obind (replace_time base hour minute) (fun d => Ok (Some d))
        | None => obind (replace_time base 23 59) (fun d => Ok (Some d))
        end
    end).

(** The title after the erasures, the whitespace collapse and the strip,
    before the [or text] of the last line. *)
Definition erase_markers (text : str) : str :=
  let title := fold_left (fun title pattern => re_sub true pattern [] title) cleanup_patterns text in
  let title := re_sub false re_ws1 (u " ") title in
  let title := re_sub true connective_pattern [] title in
  strip title.

Definition _clean_title (text : str) : str :=
  let title := erase_markers text in
  if is_nil title then text else title.

End Extractor.

(** ** Providers and the orchestrator *)

(** A task dictionary, as the providers and [parse_natural_language]
    return it. *)
Abbreviation pydict := (gmap string pyval).

(** An [AIProvider]: its class name and its four operations, each of which
    returns or raises. *)
Record AIProvider := mkProvider {
  class_name : string;
  p_parse_natural_language : str -> outcome pydict;
  p_suggest_tags : str -> option str -> outcome (list str);
  p_breakdown_task : str -> outcome (list str);
  p_recommend_priority : str -> option str -> outcome (TaskPriority * str)
}.

(** The service object: the providers loaded at construction, in order. *)
Record AIService := mkService {
  providers : list AIProvider
}.

(** The lines the orchestrator writes to its logger. *)
Inductive event :=
| LogSuccess (provider func_name : string)
| LogFailure (provider func_name : string) (e : exn)
| LogAllFailed (func_name : string) (last_error : option exn)
| LogFallback (func_name : string).

(** The loop of [_try_providers]; [call] is [getattr(provider, func_name)]
    applied to the arguments. *)
Fixpoint try_loop {A} (func_name : string) (call : AIProvider -> outcome A)
    (ps : list AIProvider) (last_error : option exn) : list event * option A :=
  match ps with
  | [] => ([LogAllFailed func_name last_error], None)
  | provider :: rest =>
      match call provider with
      | Ok result => ([LogSuccess (class_name provider) func_name], Some result)
      | Raise e =>
          let '(log, result) := try_loop func_name call rest (Some e) in
          (LogFailure (class_name provider) func_name e :: log, result)
      end
  end.

Definition _try_providers {A} (self : AIService) (func_name : string)
    (call : AIProvider -> outcome A) : list event * option A :=
  try_loop func_name call (providers self) None.

(** [x or "medium"] *)
Definition or_medium (x : option str) : str :=
  match x with
  | Some (c :: s) => c :: s
  | _ => u "medium"
  end.

(** [result.get(key)] *)
Definition dict_get (result : pydict) (key : string) : pyval :=
  default PNone (result !! key).

Definition priority_eqb (a b : TaskPriority) : bool :=
  match a, b with
  | LOW, LOW | MEDIUM, MEDIUM | HIGH, HIGH => true
  | _, _ => false
  end.

Section Orchestrator.
Context `{B : Builtins}.

(** The dictionary the fallback of [parse_natural_language] builds. *)
Definition fallback_dict (title : str) (priority : TaskPriority) (due_date : option datetime)
    : pydict :=
  list_to_map
    [("title", PStr title);
     ("description", PNone);
     ("priority", PStr (priority_value priority));
     ("due_date", match due_date with
                  | Some d => PStr (py_isoformat d)
                  | None => PNone
                  end);
     ("tags", PList [])].

(** The fallback branch of [parse_natural_language]. *)
Definition parse_fallback (now : datetime) (text : str) : outcome pydict :=
  let '(priority, _) := _get_fallback_priority text None in
  obind (_parse_relative_date now text) (fun due_date =>
    let title := _clean_title text in
    Ok (fallback_dict title priority due_date)).

(** The branch of [parse_natural_language] that post-processes a provider's
    dictionary. *)
Definition parse_override (text : str) (result : pydict) : pydict :=
  let '(forced_priority, _) := _get_fallback_priority text None in
  let result :=
    if negb (priority_eqb forced_priority MEDIUM)
    then <["priority" := PStr (priority_value forced_priority)]> result
    else result in
  <["priority" := PStr (or_medium (_normalize_priority (dict_get result "priority")))]> result.

(** An empty dictionary is falsy. *)
Definition dict_truthy (result : pydict) : bool := negb (bool_decide (result = ∅)).

Definition parse_natural_language (self : AIService) (now : datetime) (text : str)
    : list event * outcome pydict :=
  let '(log, result) :=
    _try_providers self "parse_natural_language" (fun p => p_parse_natural_language p text) in
  match result with
  | Some result =>
      if dict_truthy result then (log, Ok (parse_override text result))
      else (log ++ [LogFallback "parse_natural_language"], parse_fallback now text)
  | None => (log ++ [LogFallback "parse_natural_language"], parse_fallback now text)
  end.

Definition suggest_tags (self : AIService) (title : str) (description : option str)
    : list event * list str :=
  let '(log, result) :=
    _try_providers self "suggest_tags" (fun p => p_suggest_tags p title description) in
  match result with
  | Some (tag :: tags) => (log, tag :: tags)
  | _ => (log ++ [LogFallback "suggest_tags"], _get_fallback_tags title description)
  end.

Definition breakdown_task (self : AIService) (task_description : str)
    : list event * list str :=
  let '(log, result) :=
    _try_providers self "breakdown_task" (fun p => p_breakdown_task p task_description) in
  match result with
  | Some (subtask :: subtasks) => (log, subtask :: subtasks)
  | _ =>
      (log ++ [LogFallback "breakdown_task"],
       [u "准备 " ++ task_description;
        u "执行 " ++ task_description;
        u "完成 " ++ task_description])
  end.

(** A provider's result is a pair, which is never falsy. *)
Definition recommend_priority (self : AIService) (title : str) (description : option str)
    : list event * (TaskPriority * str) :=
  let '(log, result) :=
    _try_providers self "recommend_priority" (fun p => p_recommend_priority p title description) in
  match result with
  | Some result => (log, result)
  | None => (log ++ [LogFallback "recommend_priority"], _get_fallback_priority title description)
  end.

End Orchestrator.

(** ** Vocabulary of the specification *)

(** Every provider of [ps] raises on the call. *)
Definition all_raise {A} (call : AIProvider -> outcome A) (ps : list AIProvider) : Prop :=
  Forall (fun p => exists e, call p = Raise e) ps.

(** [r] is the result of the first provider of [ps] that does not raise. *)
Definition first_success {A} (call : AIProvider -> outcome A) (ps : list AIProvider) (r : A)
    : Prop :=
  exists failed p rest, ps = failed ++ p :: rest /\ all_raise call failed /\ call p = Ok r.

(** The warnings the loop logs for the providers of [ps] that raise. *)
Definition failure_log {A} (func_name : string) (call : AIProvider -> outcome A)
    (ps : list AIProvider) : list event :=
  flat_map (fun p =>
    match call p with
    | Raise e => [LogFailure (class_name p) func_name e]
    | Ok _ => []
    end) ps.

(** The deterministic extractor was invoked for [func_name]: the
    orchestrator logged its fallback line. *)
Definition extractor_invoked (func_name : string) (log : list event) : Prop :=
  In (LogFallback func_name) log.

(** The orchestration [run] returns the result of the first provider that
    does not raise, post-processed by [post], when that result is truthy;
    its log shows the providers before it failing and none after it. *)
Definition returns_first_success {A R} (func_name : string)
    (call : AIProvider -> outcome A) (truthy : A -> Prop) (post : A -> R)
    (run : AIService -> list event * R) : Prop :=
  forall failed p rest r,
    all_raise call failed -> call p = Ok r -> truthy r ->
    run (mkService (failed ++ p :: rest))
    = (failure_log func_name call failed ++ [LogSuccess (class_name p) func_name], post r).

(** The orchestration [run] invokes the extractor exactly when every
    provider raises (an empty list included) or the first provider that
    does not raise returns a falsy result. *)
Definition falls_back_exactly {A R} (func_name : string)
    (call : AIProvider -> outcome A) (truthy : A -> Prop)
    (run : AIService -> list event * R) : Prop :=
  forall self,
    extractor_invoked func_name (fst (run self)) <->
    all_raise call (providers self) \/
    exists r, first_success call (providers self) r /\ ~ truthy r.

(** The error the loop holds when it runs out of providers: that of the
    last provider that raised, [None] when none did. *)
Definition last_raised {A} (call : AIProvider -> outcome A) (ps : list AIProvider)
    (last_error : option exn) : option exn :=
  fold_left (fun held p =>
    match call p with
    | Raise e => Some e
    | Ok _ => held
    end) ps last_error.

(** The orchestration [run] answers with the extractor's result [fallback]
    on both fallback paths.  When every provider raises, the log is the
    warnings, the error line and the fallback line.  When the first
    provider that does not raise returns a falsy result, the log is the
    warnings before it, its success line and the fallback line, whatever
    providers follow it: none of them is consulted. *)
Definition answers_with_extractor {A R} (func_name : string)
    (call : AIProvider -> outcome A) (truthy : A -> Prop) (fallback : R)
    (run : AIService -> list event * R) : Prop :=
  (forall ps,
     all_raise call ps ->
     run (mkService ps)
     = (failure_log func_name call ps
        ++ [LogAllFailed func_name (last_raised call ps None); LogFallback func_name],
        fallback)) /\
  (forall failed p rest r,
     all_raise call failed -> call p = Ok r -> ~ truthy r ->
     run (mkService (failed ++ p :: rest))
     = (failure_log func_name call failed
        ++ [LogSuccess (class_name p) func_name; LogFallback func_name],
        fallback)).

(** A visible ASCII character. *)
Definition plain_char (c : cp) : bool := is_ascii c && negb (ascii_isspace c).

(** [bool(l)] for a list, and for the pair [recommend_priority] returns. *)
Definition list_truthy {A} (l : list A) : bool := negb (is_nil l).
Definition pair_truthy {A C} (_ : A * C) : bool := true.

Section Vocabulary.
Context `{B : Builtins}.

(** A trigger of the high (low) lexicon occurs in the lowered content
    [f"{title} {description or ''}".lower()] that the scan reads. *)
Definition has_high_trigger (title : str) (description : option str) : Prop :=
  exists w, In w high_keywords /\ Substring w (content_of title description).

Definition has_low_trigger (title : str) (description : option str) : Prop :=
  exists w, In w low_keywords /\ Substring w (content_of title description).

(** A whitespace character other than the space. *)
Definition odd_space (c : cp) : bool := py_isspace c && negb (c =? 32)%N.

Fixpoint odd_spaces (s : str) : nat :=
  match s with
  | c :: s' => ((if odd_space c then 1 else 0) + odd_spaces s')%nat
  | [] => 0%nat
  end.

(** The size of a title: its length, a whitespace character other than
    the space counting twice. *)
Definition title_size (s : str) : nat := (length s + odd_spaces s)%nat.

(** [a] is [b], or a smaller string that is no longer. *)
Definition same_or_smaller (a b : str) : Prop :=
  a = b \/ ((length a <= length b)%nat /\ (title_size a < title_size b)%nat).

(** One of the literal day cues, which [_parse_relative_date] tests before
    it looks for "next". *)
Definition has_day_cue (text : str) : bool :=
  let text_lower := py_lower text in
  (contains (u "今天") text || contains (u "today") text_lower) ||
  (contains (u "明天") text || contains (u "tomorrow") text_lower) ||
  (contains (u "后天") text || contains (u "day after tomorrow") text_lower).

(** A "next <weekday>" input: no literal day cue, the word "next", and
    [day_num] the number of the first weekday name of [weekday_map_en] that
    occurs in the lowered text. *)
Definition next_weekday_input (text : str) (day_num : Z) : Prop :=
  has_day_cue text = false /\
  contains (u "next") (py_lower text) = true /\
  exists day_name,
    List.find (fun entry => contains (fst entry) (py_lower text)) weekday_map_en
    = Some (day_name, day_num).

(** None of the literal day cues occurs in the text: the Chinese ones are
    looked for in the text as given, the English ones in the lowered text. *)
Definition day_cue_free (text : str) : Prop :=
  Forall (fun cue => ~ Substring cue text) [u "今天"; u "明天"; u "后天"] /\
  Forall (fun cue => ~ Substring cue (py_lower text))
    [u "today"; u "tomorrow"; u "day after tomorrow"].

(** [day_num] is the weekday the text names first in the order of the
    table: monday to sunday, then mon to sun.  A name counts wherever it
    occurs in the lowered text, within a longer word too. *)
Definition first_named_weekday (text : str) (day_num : Z) : Prop :=
  exists before day_name after,
    weekday_map_en = before ++ (day_name, day_num) :: after /\
    Substring day_name (py_lower text) /\
    Forall (fun entry => ~ Substring (fst entry) (py_lower text)) before.

(** A request for the next [day_num]: no literal day cue, the word "next"
    and a weekday name somewhere in the lowered text. *)
Definition next_weekday_request (text : str) (day_num : Z) : Prop :=
  day_cue_free text /\
  Substring (u "next") (py_lower text) /\
  first_named_weekday text day_num.

End Vocabulary.

(** ** An instance of the interpreter tables

    CPython's tables restricted to the characters the lexicons and the
    examples are written in: ASCII, the CJK unified ideographs, the
    fullwidth digits and the CJK punctuation (which has no case and is not
    a word character).  [isspace] is CPython's full whitespace table. *)

Definition table_isspace (c : cp) : bool :=
  ascii_isspace c ||
  existsb (N.eqb c) [133; 160; 5760; 8232; 8233; 8239; 8287; 12288]%N ||
  (8192 <=? c)%N && (c <=? 8202)%N.

Definition table_decimal (c : cp) : option Z :=
  if (48 <=? c)%N && (c <=? 57)%N then Some (Z.of_N c - 48)
  else if (65296 <=? c)%N && (c <=? 65305)%N then Some (Z.of_N c - 65296)
  else None.

Definition table_isword (c : cp) : bool :=
  (48 <=? c)%N && (c <=? 57)%N || (65 <=? c)%N && (c <=? 90)%N ||
  (97 <=? c)%N && (c <=? 122)%N || (c =? 95)%N ||
  (19968 <=? c)%N && (c <=? 40959)%N || (65296 <=? c)%N && (c <=? 65305)%N.

Definition table_caseless (p c : cp) : bool := (ascii_lower p =? ascii_lower c)%N.

Definition is_leap (y : Z) : bool :=
  (y mod 4 =? 0) && (negb (y mod 100 =? 0) || (y mod 400 =? 0)).

Definition days_in_month (y m : Z) : Z :=
  if m =? 2 then (if is_leap y then 29 else 28)
  else if (m =? 4) || (m =? 6) || (m =? 9) || (m =? 11) then 30
  else 31.

Fixpoint month_of (y : Z) (n : Z) (m : Z) (fuel : nat) : Z * Z :=
  match fuel with
  | O => (m, n + 1)
  | S fuel' =>
      if n <? days_in_month y m then (m, n + 1)
      else month_of y (n - days_in_month y m) (m + 1) fuel'
  end.

(** Year, month and day of a date ordinal, by the 400, 100, 4 and 1 year
    cycles. *)
Definition ymd_of_ordinal (ord : Z) : Z * Z * Z :=
  let n := ord - 1 in
  let n400 := n / 146097 in
  let n := n mod 146097 in
  let n100 := n / 36524 in
  let n := n mod 36524 in
  let n4 := n / 1461 in
  let n := n mod 1461 in
  let n1 := n / 365 in
  let n := n mod 365 in
  let year := n400 * 400 + 1 + n100 * 100 + n4 * 4 + n1 in
  if (n1 =? 4) || (n100 =? 4) then (year - 1, 12, 31)
  else let '(m, d) := month_of year n 1 11 in (year, m, d).

Definition digit_cp (d : Z) : cp := Z.to_N (48 + d mod 10).

Fixpoint digits_of (width : nat) (z : Z) : str :=
  match width with
  | O => []
  | S w => digits_of w (z / 10) ++ [digit_cp z]
  end.

Definition table_isoformat (d : datetime) : str :=
  let '(y, m, dd) := ymd_of_ordinal (dt_day d) in
  digits_of 4 y ++ u "-" ++ digits_of 2 m ++ u "-" ++ digits_of 2 dd ++ u "T" ++
  digits_of 2 (dt_hour d) ++ u ":" ++ digits_of 2 (dt_minute d) ++ u ":" ++
  digits_of 2 (dt_second d) ++
  (if dt_microsecond d =? 0 then [] else u "." ++ digits_of 6 (dt_microsecond d)).

Definition table_repr_list (l : list str) : str :=
  u "[" ++
  (fix join (l : list str) : str :=
     match l with
     | [] => []
     | [x] => u "'" ++ x ++ u "'"
     | x :: l' => u "'" ++ x ++ u "', " ++ join l'
     end) l ++
  u "]".

#[export] Instance cpython_tables : Builtins.
Proof.
  refine {|
    py_lower := map ascii_lower;
    py_isspace := table_isspace;
    py_decimal := table_decimal;
    py_isword := table_isword;
    py_caseless := table_caseless;
    py_isoformat := table_isoformat;
    py_repr_list := table_repr_list
  |}.
  - reflexivity.
  - unfold is_ascii, table_isspace. intros c Hc%N.ltb_lt.
    replace (existsb (N.eqb c) _) with false.
    + replace ((8192 <=? c)%N) with false; [now rewrite !orb_false_r|].
      symmetry. apply N.leb_gt. lia.
    + symmetry. apply not_true_is_false. intros Hex%existsb_exists.
      destruct Hex as [x [Hin Hx%N.eqb_eq]]. subst x.
      simpl in Hin. lia.
Defined.

(** ** Sample providers and a sample clock reading *)

(** A provider whose four operations raise. *)
Definition failing_provider (name : string) : AIProvider :=
  mkProvider name
    (fun _ => Raise (ProviderFailure "parse"))
    (fun _ _ => Raise (ProviderFailure "tags"))
    (fun _ => Raise (ProviderFailure "breakdown"))
    (fun _ _ => Raise (ProviderFailure "priority")).

(** A provider that answers every request, with no tags, no subtasks and a
    medium priority. *)
Definition terse_provider (name : string) : AIProvider :=
  mkProvider name
    (fun text => Ok {["title" := PStr text]})
    (fun _ _ => Ok [])
    (fun _ => Ok [])
    (fun _ _ => Ok (MEDIUM, u "routine")).

(** A provider that parses every text to a task of the given priority. *)
Definition opinionated_provider (name : string) (priority : str) : AIProvider :=
  mkProvider name
    (fun text => Ok {["title" := PStr text; "priority" := PStr priority]})
    (fun _ _ => Ok [u "Work"])
    (fun _ => Ok [u "start"; u "continue"; u "finish"])
    (fun _ _ => Ok (MEDIUM, u "routine")).

(** Monday 2027-01-18, 09:30. *)
Definition sample_now : datetime := mkDatetime 739999 9 30 0 0.

(** ** Construction of the service *)

(** The settings [AIService.__init__] reads. *)
Record Settings := mkSettings {
  openai_api_key : str;
  google_ai_api_key : str;
  ai_provider : str
}.

(** The lines [__init__] writes to the logger. *)
Inductive init_event :=
| InfoLoaded (provider : string)
| WarnInitFailed (provider : string) (e : exn)
| WarnNoProviders.

Section Construction.
Context `{B : Builtins}.

(** [AIService.__init__].  [OpenAIProvider] and [GoogleAIProvider] are the
    constructors of the two provider classes: given the key they raise, or
    return the provider object and its [available] flag. *)
Definition AIService_init (settings : Settings)
    (OpenAIProvider GoogleAIProvider : str -> outcome (AIProvider * bool))
    : list init_event * AIService :=
  let provider_mode := py_lower (ai_provider settings) in
  let '(log, providers) := ([], []) in
  let '(log, providers) :=
    if str_in provider_mode (map u ["openai"; "auto"]) then
      if negb (is_nil (openai_api_key settings)) then
        match OpenAIProvider (openai_api_key settings) with
        | Ok (provider, available) =>
            if available
            then (log ++ [InfoLoaded "OpenAI"], providers ++ [provider])
            else (log, providers)
        | Raise e => (log ++ [WarnInitFailed "OpenAI" e], providers)
        end
      else (log, providers)
    else (log, providers) in
  let '(log, providers) :=
    if str_in provider_mode (map u ["google"; "auto"]) then
      if negb (is_nil (google_ai_api_key settings)) then
        match GoogleAIProvider (google_ai_api_key settings) with
        | Ok (provider, available) =>
            if available
            then (log ++ [InfoLoaded "Google AI"], providers ++ [provider])
            else (log, providers)
        | Raise e => (log ++ [WarnInitFailed "Google AI" e], providers)
        end
      else (log, providers)
    else (log, providers) in
  let log := if is_nil providers then log ++ [WarnNoProviders] else log in
  (log, mkService providers).

End Construction.

(** ** Vocabulary of the further properties *)

(** The labels tag inference can give. *)
Definition tag_labels : list str := map u
  ["Meeting"; "Code"; "Review"; "Project"; "Report"; "Work";
   "Study"; "Shopping"; "Health"; "Personal"; "Finance"; "Travel"].

(** The keywords of all the tag categories. *)
Definition category_keywords : list str :=
  work_keywords ++ study_keywords ++ shopping_keywords ++ health_keywords ++
  personal_keywords ++ finance_keywords ++ travel_keywords.

Fixpoint nodupb (l : list str) : bool :=
  match l with
  | [] => true
  | x :: l' => negb (str_in x l') && nodupb l'
  end.

(** Between one and three labels of [tag_labels], none twice. *)
Definition tags_well_formed (tags : list str) : bool :=
  negb (is_nil tags) && (length tags <=? 3)%nat &&
  forallb (fun tag => str_in tag tag_labels) tags && nodupb tags.

(** The time of day is one [datetime.replace] accepts. *)
Definition time_in_range (hour minute : Z) : bool :=
  (0 <=? hour) && (hour <=? 23) && (0 <=? minute) && (minute <=? 59).

(** The ordinal of [datetime.max], 9999-12-31. *)
Definition max_ordinal : Z := 3652059.

(** A clock reading from which the relative-date pass can reach every day
    it may name, up to thirteen days ahead, without leaving the range of
    [datetime]: [now + timedelta(days=n)] does not raise [OverflowError]. *)
Definition clock_in_range (now : datetime) : Prop :=
  1 <= dt_day now /\ dt_day now + 13 <= max_ordinal.

Section FurtherVocabulary.
Context `{B : Builtins}.

(** The text the normaliser compares: [str(value).strip().lower()]. *)
Definition normalized_text (value : pyval) : str := py_lower (strip (py_str value)).

(** A value the normaliser is given when the provider named no priority:
    absent or [None], an empty or all-whitespace string, an empty list. *)
Definition blank_value (value : pyval) : bool :=
  match value with
  | PNone => true
  | PStr s => forallb py_isspace s
  | PList l => is_nil l
  end.

(** A "本周X" or "下周X" input: no literal day cue, no "next", and the
    first match of [zh_week_pattern] is [flag] followed by a weekday
    character that [weekday_map] sends to [target]. *)
Definition zh_week_input (text : str) (flag : str) (target : Z) : Prop :=
  has_day_cue text = false /\
  contains (u "next") (py_lower text) = false /\
  exists m c,
    re_search false zh_week_pattern text = Some m /\
    group m 1 = Some flag /\
    m_text m = flag ++ [c] /\
    snd <$> List.find (fun entry => (fst entry =? c)%N) weekday_map = Some target.

(** The text has "今天" or, in any case, "today". *)
Definition has_today_cue (text : str) : bool :=
  contains (u "今天") text || contains (u "today") (py_lower text).

End FurtherVocabulary.

(** Tag inference as a function of the outcomes of its tests, in the order
    [_get_fallback_tags] makes them: the work keywords and the five
    refinements, the six other categories, and the three tests of the
    default branch. *)
Definition tags_from
    (work meeting code review project report : bool)
    (study shopping health personal finance travel : bool)
    (default_meeting default_code default_review : bool) : list str :=
  let simple_tags : list str := [] in
  let simple_tags :=
    if work then
      if meeting then simple_tags ++ [u "Meeting"]
      else if code then simple_tags ++ [u "Code"]
      else if review then simple_tags ++ [u "Review"]
      else if project then simple_tags ++ [u "Project"]
      else if report then simple_tags ++ [u "Report"]
      else simple_tags ++ [u "Work"]
    else simple_tags in
  let simple_tags := if study then simple_tags ++ [u "Study"] else simple_tags in
  let simple_tags := if shopping then simple_tags ++ [u "Shopping"] else simple_tags in
  let simple_tags := if health then simple_tags ++ [u "Health"] else simple_tags in
  let simple_tags := if personal then simple_tags ++ [u "Personal"] else simple_tags in
  let simple_tags := if finance then simple_tags ++ [u "Finance"] else simple_tags in
  let simple_tags := if travel then simple_tags ++ [u "Travel"] else simple_tags in
  let simple_tags :=
    if is_nil simple_tags then
      if default_meeting then simple_tags ++ [u "Meeting"]
      else if default_code then simple_tags ++ [u "Code"]
      else if default_review then simple_tags ++ [u "Review"]
      else simple_tags ++ [u "Work"]
    else simple_tags in
  if is_nil simple_tags then [u "Other"] else take 3 simple_tags.

(** A test that holds for both truth values. *)
Definition forall_bool (f : bool -> bool) : bool := f true && f false.

(** A label of the work family first and "Study" second. *)
Definition work_then_study (tags : list str) : bool :=
  match tags with
  | first :: second :: _ =>
      str_in first (map u ["Meeting"; "Code"; "Review"; "Project"; "Report"; "Work"]) &&
      str_eqb second (u "Study")
  | _ => false
  end.

(** ** Further samples *)

(** Friday 2027-01-22, 09:30. *)
Definition sample_friday : datetime := mkDatetime 740003 9 30 0 0.

(** Settings with both keys and the mode written "Auto". *)
Definition sample_settings : Settings := mkSettings (u "sk-1") (u "g-2") (u "Auto").

(** * Properties *)

(** ** Substring search *)

Lemma starts_with_spec (w s : str) :
  starts_with w s = true <-> exists b, s = w ++ b.
Proof.
  revert s. induction w as [|a w IH]; intros s; simpl.
  - split; [intros _; now exists s | reflexivity].
  - destruct s as [|c s].
    + split; [discriminate | intros [b Hb]; discriminate].
    + rewrite andb_true_iff, N.eqb_eq, IH. split.
      * intros [-> [b ->]]. now exists b.
      * intros [b Hb]. injection Hb as -> ->. split; [reflexivity | now exists b].
Qed.

Lemma contains_spec (w s : str) :
  contains w s = true <-> Substring w s.
Proof.
  unfold Substring. induction s as [|c s IH]; simpl.
  - rewrite orb_false_r, starts_with_spec. split.
    + intros [b Hb]. now exists [], b.
    + intros [a [b Hab]]. destruct a; [now exists b | discriminate].
  - rewrite orb_true_iff, starts_with_spec, IH. split.
    + intros [[b Hb] | [a [b Hab]]].
      * now exists [], b.
      * exists (c :: a), b. simpl. now rewrite Hab.
    + intros [[|x a] [b Hab]].
      * left. now exists b.
      * right. injection Hab as -> ->. now exists a, b.
Qed.

Lemma any_in_spec (ws : list str) (content : str) :
  any_in ws content = true <-> exists w, In w ws /\ Substring w content.
Proof.
  unfold any_in. rewrite existsb_exists.
  split; intros [w [Hin Hw]]; exists w; split; try assumption;
    now apply contains_spec.
Qed.

Lemma any_in_none (ws : list str) (content : str) :
  ~ (exists w, In w ws /\ Substring w content) -> any_in ws content = false.
Proof.
  intros Hno. apply not_true_is_false. intros Hany. apply Hno.
  now apply any_in_spec.
Qed.

Lemma Substring_app_r (w a : str) : Substring w (a ++ w).
Proof. exists a, []. now rewrite app_nil_r. Qed.

(** ** Priority inference *)

Section PriorityInference.
Context `{B : Builtins}.

Lemma fallback_priority_high (title : str) (description : option str) :
  has_high_trigger title description ->
  _get_fallback_priority title description
  = (HIGH, u "Based on keywords: contains urgent/important words").
Proof.
  intros Hhigh. unfold _get_fallback_priority.
  now rewrite (proj2 (any_in_spec _ _) Hhigh).
Qed.

Lemma fallback_priority_low (title : str) (description : option str) :
  ~ has_high_trigger title description ->
  has_low_trigger title description ->
  _get_fallback_priority title description
  = (LOW, u "Based on keywords: contains low priority words").
Proof.
  intros Hhigh Hlow. unfold _get_fallback_priority.
  rewrite (any_in_none _ _ Hhigh).
  now rewrite (proj2 (any_in_spec _ _) Hlow).
Qed.

Lemma fallback_priority_medium (title : str) (description : option str) :
  ~ has_high_trigger title description ->
  ~ has_low_trigger title description ->
  _get_fallback_priority title description
  = (MEDIUM, u "Based on keywords: default medium priority").
Proof.
  intros Hhigh Hlow. unfold _get_fallback_priority.
  now rewrite (any_in_none _ _ Hhigh), (any_in_none _ _ Hlow).
Qed.

(** C5. The scan for high triggers comes first: a content with a high
    trigger gives [HIGH] whether or not a low trigger occurs too, a content
    with a low trigger and no high trigger gives [LOW], and a content with
    neither gives [MEDIUM]. *)
Theorem fallback_priority_high_before_low (title : str) (description : option str) :
  (has_high_trigger title description ->
   fst (_get_fallback_priority title description) = HIGH) /\
  (~ has_high_trigger title description ->
   has_low_trigger title description ->
   fst (_get_fallback_priority title description) = LOW) /\
  (~ has_high_trigger title description ->
   ~ has_low_trigger title description ->
   fst (_get_fallback_priority title description) = MEDIUM).
Proof.
  repeat split.
  - intros H. now rewrite fallback_priority_high.
  - intros H1 H2. now rewrite fallback_priority_low.
  - intros H1 H2. now rewrite fallback_priority_medium.
Qed.

End PriorityInference.

(** A title with a high and a low trigger. *)
Lemma fallback_priority_high_before_low_witness :
  (has_high_trigger (u "URGENT, but whenever you like") None /\
   has_low_trigger (u "URGENT, but whenever you like") None) /\
  fst (_get_fallback_priority (u "URGENT, but whenever you like") None) = HIGH.
Proof.
  assert (Hhigh : has_high_trigger (u "URGENT, but whenever you like") None)
    by (apply any_in_spec; vm_compute; reflexivity).
  assert (Hlow : has_low_trigger (u "URGENT, but whenever you like") None)
    by (apply any_in_spec; vm_compute; reflexivity).
  split; [now split|].
  exact (proj1 (fallback_priority_high_before_low (u "URGENT, but whenever you like") None)
           Hhigh).
Defined.

(** On the tables of [cpython_tables] lowering works character by character
    and leaves the words of the lexicon as they are, so a high trigger that
    occurs in the title as it is written is a trigger of the content the
    scan reads. *)
Lemma written_trigger_is_scanned (w title : str) (description : option str) :
  In w high_keywords -> Substring w title -> has_high_trigger title description.
Proof.
  intros Hin [a [b ->]]. exists w. split; [exact Hin|].
  assert (Hfixed : Forall (fun k => map ascii_lower k = k) high_keywords)
    by (vm_compute; repeat constructor).
  rewrite List.Forall_forall in Hfixed.
  unfold content_of. cbn [py_lower cpython_tables].
  rewrite !map_app, (Hfixed w Hin), <- !app_assoc.
  now exists (map ascii_lower a), (map ascii_lower b ++ map ascii_lower (u " " ++ or_empty description)).
Qed.

(** ** The provider loop *)

Section ProviderLoop.
Context {A : Type} (func_name : string) (call : AIProvider -> outcome A).

Lemma failure_log_events (ps : list AIProvider) (ev : event) :
  In ev (failure_log func_name call ps) ->
  exists name e, ev = LogFailure name func_name e.
Proof.
  unfold failure_log. rewrite in_flat_map. intros [p [_ Hev]].
  destruct (call p) as [r|e]; simpl in Hev; [contradiction|].
  destruct Hev as [<-|[]]. eauto.
Qed.

Lemma failure_log_app (ps qs : list AIProvider) :
  failure_log func_name call (ps ++ qs)
  = failure_log func_name call ps ++ failure_log func_name call qs.
Proof. unfold failure_log. apply flat_map_app. Qed.

Lemma try_loop_all_raise (ps : list AIProvider) (last_error : option exn) :
  all_raise call ps ->
  exists last_error',
    try_loop func_name call ps last_error
    = (failure_log func_name call ps ++ [LogAllFailed func_name last_error'], None).
Proof.
  intros Hall. revert last_error.
  induction Hall as [|p ps [e He] _ IH]; intros last_error; simpl.
  - now exists last_error.
  - rewrite He. destruct (IH (Some e)) as [le ->]. now exists le.
Qed.

Lemma try_loop_all_raise_log (ps : list AIProvider) (last_error : option exn) :
  all_raise call ps ->
  try_loop func_name call ps last_error
  = (failure_log func_name call ps
     ++ [LogAllFailed func_name (last_raised call ps last_error)], None).
Proof.
  intros Hall. revert last_error.
  induction Hall as [|p ps [e He] _ IH]; intros last_error; simpl.
  - reflexivity.
  - rewrite He, IH. reflexivity.
Qed.

Lemma try_loop_first_success (failed rest : list AIProvider) (p : AIProvider) (r : A)
    (last_error : option exn) :
  all_raise call failed -> call p = Ok r ->
  try_loop func_name call (failed ++ p :: rest) last_error
  = (failure_log func_name call failed ++ [LogSuccess (class_name p) func_name], Some r).
Proof.
  intros Hall Hp. revert last_error.
  induction Hall as [|q qs [e He] _ IH]; intros last_error; simpl.
  - now rewrite Hp.
  - rewrite He, IH. reflexivity.
Qed.

(** Either every provider raises or some provider is the first not to. *)
Lemma all_raise_or_first_success (ps : list AIProvider) :
  all_raise call ps \/ exists r, first_success call ps r.
Proof.
  induction ps as [|p ps IH].
  - left. constructor.
  - destruct (call p) as [r|e] eqn:Hp.
    + right. exists r, [], p, ps. repeat split; [constructor | exact Hp].
    + destruct IH as [Hall | [r [failed [q [rest [-> [Hall Hq]]]]]]].
      * left. constructor; [now exists e | exact Hall].
      * right. exists r, (p :: failed), q, rest.
        repeat split; [constructor; [now exists e | exact Hall] | exact Hq].
Qed.

Lemma first_success_unique (ps : list AIProvider) (r r' : A) :
  first_success call ps r -> first_success call ps r' -> r = r'.
Proof.
  intros [failed [p [rest [-> [Hall Hp]]]]] [failed' [p' [rest' [Heq [Hall' Hp']]]]].
  pose proof (try_loop_first_success failed rest p r None Hall Hp) as H1.
  rewrite Heq in H1.
  rewrite (try_loop_first_success failed' rest' p' r' None Hall' Hp') in H1.
  congruence.
Qed.

Lemma all_raise_no_success (ps : list AIProvider) (r : A) :
  all_raise call ps -> ~ first_success call ps r.
Proof.
  intros Hall [failed [p [rest [-> [_ Hp]]]]].
  unfold all_raise in Hall. rewrite Forall_app in Hall.
  destruct Hall as [_ Hall]. inversion Hall as [|? ? [e He] _]; subst.
  congruence.
Qed.

Lemma not_fallback_in_success_log (failed : list AIProvider) (p : AIProvider) (g : string) :
  ~ In (LogFallback g) (failure_log func_name call failed ++ [LogSuccess (class_name p) func_name]).
Proof.
  rewrite in_app_iff. intros [Hin | [Heq | []]].
  - apply failure_log_events in Hin as [name [e Hev]]. discriminate.
  - discriminate.
Qed.

End ProviderLoop.

(** The shape every orchestrated operation has: run the loop, return a
    truthy result as [post] makes it, and otherwise log the fallback line
    and run the extractor. *)
Lemma orchestrated_returns_first_success {A R} (func_name : string)
    (call : AIProvider -> outcome A) (truthy : A -> bool) (post : A -> R) (fallback : R)
    (run : AIService -> list event * R) :
  (forall self,
     run self =
     let '(log, result) := _try_providers self func_name call in
     match result with
     | Some r => if truthy r then (log, post r) else (log ++ [LogFallback func_name], fallback)
     | None => (log ++ [LogFallback func_name], fallback)
     end) ->
  returns_first_success func_name call (fun r => truthy r = true) post run /\
  falls_back_exactly func_name call (fun r => truthy r = true) run /\
  answers_with_extractor func_name call (fun r => truthy r = true) fallback run.
Proof.
  intros Hrun.
  assert (Hextractor :
    answers_with_extractor func_name call (fun r => truthy r = true) fallback run).
  { split.
    - intros ps Hall. rewrite Hrun. unfold _try_providers. simpl.
      rewrite (try_loop_all_raise_log func_name call ps None Hall).
      now rewrite <- app_assoc.
    - intros failed p rest r Hall Hp Hr. rewrite Hrun. unfold _try_providers. simpl.
      rewrite (try_loop_first_success func_name call failed rest p r None Hall Hp).
      destruct (truthy r); [now destruct Hr|].
      now rewrite <- app_assoc. }
  split; [|split; [|exact Hextractor]].
  - intros failed p rest r Hall Hp Hr. rewrite Hrun. unfold _try_providers. simpl.
    rewrite (try_loop_first_success func_name call failed rest p r None Hall Hp).
    now rewrite Hr.
  - intros self. rewrite Hrun. unfold _try_providers, extractor_invoked.
    destruct (all_raise_or_first_success call (providers self))
      as [Hall | [r Hfirst]].
    + destruct (try_loop_all_raise func_name call _ None Hall) as [le ->]. simpl.
      split; [now left | intros _]. rewrite in_app_iff. right. now left.
    + pose proof Hfirst as [failed [p [rest [Hps [Hall Hp]]]]].
      rewrite Hps, (try_loop_first_success func_name call failed rest p r None Hall Hp).
      rewrite <- Hps.
      destruct (truthy r) eqn:Hr; simpl.
      * split.
        -- intros Hin. now apply not_fallback_in_success_log in Hin.
        -- intros [Hall' | [r' [Hfirst' Hr']]].
           ++ now apply (all_raise_no_success call _ r) in Hall'.
           ++ rewrite (first_success_unique func_name call _ _ _ Hfirst' Hfirst) in Hr'.
              now destruct Hr'.
      * split.
        -- intros _. right. exists r. split; [exact Hfirst | congruence].
        -- intros _. rewrite in_app_iff. right. now left.
Qed.

(** ** The orchestrator *)

Section OrchestratorProperties.
Context `{B : Builtins}.

Lemma parse_natural_language_shape (now : datetime) (text : str) :
  let run := fun self => parse_natural_language self now text in
  let call := fun p => p_parse_natural_language p text in
  returns_first_success "parse_natural_language" call (fun r => dict_truthy r = true)
    (fun r => Ok (parse_override text r)) run /\
  falls_back_exactly "parse_natural_language" call (fun r => dict_truthy r = true) run /\
  answers_with_extractor "parse_natural_language" call (fun r => dict_truthy r = true)
    (parse_fallback now text) run.
Proof.
  apply orchestrated_returns_first_success with (fallback := parse_fallback now text).
  intros self. unfold parse_natural_language.
  destruct (_try_providers _ _ _) as [log [r|]]; reflexivity.
Qed.

Lemma suggest_tags_shape (title : str) (description : option str) :
  let run := fun self => suggest_tags self title description in
  let call := fun p => p_suggest_tags p title description in
  returns_first_success "suggest_tags" call (fun r => list_truthy r = true) (fun r => r) run /\
  falls_back_exactly "suggest_tags" call (fun r => list_truthy r = true) run /\
  answers_with_extractor "suggest_tags" call (fun r => list_truthy r = true)
    (_get_fallback_tags title description) run.
Proof.
  apply orchestrated_returns_first_success
    with (fallback := _get_fallback_tags title description).
  intros self. unfold suggest_tags.
  destruct (_try_providers _ _ _) as [log [[|tag tags]|]]; reflexivity.
Qed.

Lemma breakdown_task_shape (task_description : str) :
  let run := fun self => breakdown_task self task_description in
  let call := fun p => p_breakdown_task p task_description in
  returns_first_success "breakdown_task" call (fun r => list_truthy r = true) (fun r => r) run /\
  falls_back_exactly "breakdown_task" call (fun r => list_truthy r = true) run /\
  answers_with_extractor "breakdown_task" call (fun r => list_truthy r = true)
    [u "准备 " ++ task_description;
     u "执行 " ++ task_description;
     u "完成 " ++ task_description] run.
Proof.
  apply orchestrated_returns_first_success
    with (fallback := [u "准备 " ++ task_description;
                       u "执行 " ++ task_description;
                       u "完成 " ++ task_description]).
  intros self. unfold breakdown_task.
  destruct (_try_providers _ _ _) as [log [[|subtask subtasks]|]]; reflexivity.
Qed.

Lemma recommend_priority_shape (title : str) (description : option str) :
  let run := fun self => recommend_priority self title description in
  let call := fun p => p_recommend_priority p title description in
  returns_first_success "recommend_priority" call (fun r => pair_truthy r = true)
    (fun r => r) run /\
  falls_back_exactly "recommend_priority" call (fun r => pair_truthy r = true) run /\
  answers_with_extractor "recommend_priority" call (fun r => pair_truthy r = true)
    (_get_fallback_priority title description) run.
Proof.
  apply orchestrated_returns_first_success
    with (fallback := _get_fallback_priority title description).
  intros self. unfold recommend_priority.
  destruct (_try_providers _ _ _) as [log [r|]]; reflexivity.
Qed.

(** C3, as the code has it.  For each of the four operations: when some
    provider does not raise, the providers before it are the only ones
    consulted besides it (the log and the result do not depend on the
    providers after it), and its result is returned when it is truthy (as
    [parse_override] makes it for [parse_natural_language], unchanged for
    the other three); the extractor is invoked exactly when every provider
    raises, the list is empty, or the first provider that does not raise
    returned a falsy (empty) result; and on both of these paths the
    operation answers with the extractor's result ([parse_fallback],
    [_get_fallback_tags], the three prefixed subtasks,
    [_get_fallback_priority]), after a falsy result without consulting any
    later provider. *)
Theorem orchestrator_first_success_or_fallback
    (now : datetime) (text title task_description : str) (description : option str) :
  (returns_first_success "parse_natural_language"
     (fun p => p_parse_natural_language p text) (fun r => dict_truthy r = true)
     (fun r => Ok (parse_override text r))
     (fun self => parse_natural_language self now text) /\
   falls_back_exactly "parse_natural_language"
     (fun p => p_parse_natural_language p text) (fun r => dict_truthy r = true)
     (fun self => parse_natural_language self now text) /\
   answers_with_extractor "parse_natural_language"
     (fun p => p_parse_natural_language p text) (fun r => dict_truthy r = true)
     (parse_fallback now text)
     (fun self => parse_natural_language self now text)) /\
  (returns_first_success "suggest_tags"
     (fun p => p_suggest_tags p title description) (fun r => list_truthy r = true)
     (fun r => r) (fun self => suggest_tags self title description) /\
   falls_back_exactly "suggest_tags"
     (fun p => p_suggest_tags p title description) (fun r => list_truthy r = true)
     (fun self => suggest_tags self title description) /\
   answers_with_extractor "suggest_tags"
     (fun p => p_suggest_tags p title description) (fun r => list_truthy r = true)
     (_get_fallback_tags title description)
     (fun self => suggest_tags self title description)) /\
  (returns_first_success "breakdown_task"
     (fun p => p_breakdown_task p task_description) (fun r => list_truthy r = true)
     (fun r => r) (fun self => breakdown_task self task_description) /\
   falls_back_exactly "breakdown_task"
     (fun p => p_breakdown_task p task_description) (fun r => list_truthy r = true)
     (fun self => breakdown_task self task_description) /\
   answers_with_extractor "breakdown_task"
     (fun p => p_breakdown_task p task_description) (fun r => list_truthy r = true)
     [u "准备 " ++ task_description;
      u "执行 " ++ task_description;
      u "完成 " ++ task_description]
     (fun self => breakdown_task self task_description)) /\
  (returns_first_success "recommend_priority"
     (fun p => p_recommend_priority p title description) (fun r => pair_truthy r = true)
     (fun r => r) (fun self => recommend_priority self title description) /\
   falls_back_exactly "recommend_priority"
     (fun p => p_recommend_priority p title description) (fun r => pair_truthy r = true)
     (fun self => recommend_priority self title description) /\
   answers_with_extractor "recommend_priority"
     (fun p => p_recommend_priority p title description) (fun r => pair_truthy r = true)
     (_get_fallback_priority title description)
     (fun self => recommend_priority self title description)).
Proof.
  split; [apply parse_natural_language_shape|].
  split; [apply suggest_tags_shape|].
  split; [apply breakdown_task_shape|].
  apply recommend_priority_shape.
Qed.

(** C10. When every provider raises or none is configured, the breakdown
    is the three subtasks "准备", "执行", "完成" in this order, each followed
    by a space and the description as it was given. *)
Theorem breakdown_fallback_three_subtasks (self : AIService) (task_description : str) :
  all_raise (fun p => p_breakdown_task p task_description) (providers self) ->
  let subtasks := snd (breakdown_task self task_description) in
  subtasks = [u "准备 " ++ task_description;
              u "执行 " ++ task_description;
              u "完成 " ++ task_description] /\
  length subtasks = 3%nat /\
  Forall (Substring task_description) subtasks.
Proof.
  intros Hall subtasks.
  assert (Hsub : subtasks = [u "准备 " ++ task_description;
                            u "执行 " ++ task_description;
                            u "完成 " ++ task_description]).
  { unfold subtasks, breakdown_task, _try_providers.
    destruct (try_loop_all_raise "breakdown_task" _ _ None Hall) as [le ->].
    reflexivity. }
  rewrite Hsub. split; [reflexivity|]. split; [reflexivity|].
  repeat constructor; apply Substring_app_r.
Qed.

End OrchestratorProperties.

(** Two providers that both raise. *)
Lemma breakdown_fallback_three_subtasks_witness :
  all_raise (fun p => p_breakdown_task p (u "write the report"))
    [failing_provider "OpenAIProvider"; failing_provider "GoogleAIProvider"] /\
  snd (breakdown_task
         (mkService [failing_provider "OpenAIProvider"; failing_provider "GoogleAIProvider"])
         (u "write the report"))
  = [u "准备 write the report"; u "执行 write the report"; u "完成 write the report"].
Proof.
  assert (Hall : all_raise (fun p => p_breakdown_task p (u "write the report"))
            [failing_provider "OpenAIProvider"; failing_provider "GoogleAIProvider"]).
  { repeat constructor; eexists; reflexivity. }
  split; [exact Hall|].
  exact (proj1 (breakdown_fallback_three_subtasks
                  (mkService [failing_provider "OpenAIProvider";
                              failing_provider "GoogleAIProvider"])
                  (u "write the report") Hall)).
Defined.

(** The first provider raises and the second answers: with a truthy answer
    it is returned, with an empty one the extractor's tags are, and the
    third provider is consulted in neither case. *)
Lemma orchestrator_first_success_or_fallback_witness :
  all_raise (fun p => p_suggest_tags p (u "buy milk") None)
    [failing_provider "OpenAIProvider"] /\
  suggest_tags
    (mkService [failing_provider "OpenAIProvider";
                opinionated_provider "GoogleAIProvider" (u "low");
                terse_provider "Spare"])
    (u "buy milk") None
  = ([LogFailure "OpenAIProvider" "suggest_tags" (ProviderFailure "tags");
      LogSuccess "GoogleAIProvider" "suggest_tags"],
     [u "Work"]) /\
  suggest_tags
    (mkService [failing_provider "OpenAIProvider";
                terse_provider "GoogleAIProvider";
                opinionated_provider "Spare" (u "low")])
    (u "buy milk") None
  = ([LogFailure "OpenAIProvider" "suggest_tags" (ProviderFailure "tags");
      LogSuccess "GoogleAIProvider" "suggest_tags";
      LogFallback "suggest_tags"],
     _get_fallback_tags (u "buy milk") None).
Proof.
  assert (Hall : all_raise (fun p => p_suggest_tags p (u "buy milk") None)
                   [failing_provider "OpenAIProvider"]).
  { repeat constructor. eexists. reflexivity. }
  split; [exact Hall|]. split.
  - exact (proj1 (proj1 (proj2
             (orchestrator_first_success_or_fallback sample_now [] (u "buy milk") [] None)))
             [failing_provider "OpenAIProvider"]
             (opinionated_provider "GoogleAIProvider" (u "low"))
             [terse_provider "Spare"] [u "Work"] Hall eq_refl eq_refl).
  - exact (proj2 (proj2 (proj2 (proj1 (proj2
             (orchestrator_first_success_or_fallback sample_now [] (u "buy milk") [] None)))))
             [failing_provider "OpenAIProvider"]
             (terse_provider "GoogleAIProvider")
             [opinionated_provider "Spare" (u "low")] [] Hall eq_refl
             (fun H => Bool.diff_false_true H)).
Defined.

(** C3 as the specification words it fails: a provider that answers
    [suggest_tags] with an empty list did not raise, and yet the extractor
    is invoked. *)
Lemma extractor_invoked_after_a_success :
  ~ (forall (self : AIService) (title : str) (description : option str),
       extractor_invoked "suggest_tags" (fst (suggest_tags self title description)) <->
       all_raise (fun p => p_suggest_tags p title description) (providers self)).
Proof.
  intros Hclaim.
  specialize (Hclaim (mkService [terse_provider "OpenAIProvider"]) (u "buy milk") None).
  assert (Hinv : extractor_invoked "suggest_tags"
            (fst (suggest_tags (mkService [terse_provider "OpenAIProvider"])
                    (u "buy milk") None))).
  { right. now left. }
  apply Hclaim in Hinv. inversion Hinv as [|? ? [e He] _]. discriminate.
Qed.

(** ** Priority normalisation and the override of [parse_natural_language] *)

(** Evaluate the string literals of the goal. *)
Ltac eval_literals :=
  repeat match goal with
  | |- context [map u ?l] =>
      let v := eval vm_compute in (map u l) in change (map u l) with v
  | |- context [u ?s] =>
      let v := eval vm_compute in (u s) in change (u s) with v
  end.

Section Normalisation.
Context `{B : Builtins}.

Lemma lstrip_keep (c : cp) (s : str) :
  plain_char c = true -> lstrip (c :: s) = c :: s.
Proof.
  unfold plain_char. intros [Hascii Hspace%negb_true_iff]%andb_true_iff.
  simpl. now rewrite (py_isspace_ascii c Hascii), Hspace.
Qed.

(** A string that starts and ends with a visible ASCII character is its
    own [strip()]. *)
Lemma strip_keep (s : str) :
  match s with c :: _ => plain_char c | [] => true end = true ->
  match rev s with c :: _ => plain_char c | [] => true end = true ->
  strip s = s.
Proof.
  intros Hhead Hlast. unfold strip.
  destruct s as [|c s]; [reflexivity|].
  rewrite (lstrip_keep c s Hhead).
  destruct (rev (c :: s)) as [|c' s'] eqn:Hrev.
  - apply (f_equal (@rev cp)) in Hrev. now rewrite rev_involutive in Hrev.
  - rewrite (lstrip_keep c' s' Hlast), <- Hrev. apply rev_involutive.
Qed.

(** The three values of [TaskPriority] are fixed points of the normaliser. *)
Lemma normalize_canonical (p : TaskPriority) :
  _normalize_priority (PStr (priority_value p)) = Some (priority_value p).
Proof.
  destruct p; unfold _normalize_priority, priority_value, py_str; eval_literals;
    (rewrite strip_keep by reflexivity);
    (rewrite py_lower_ascii by reflexivity); reflexivity.
Qed.

Lemma parse_override_priority (text : str) (result : pydict) :
  parse_override text result !! "priority"
  = Some (PStr
      (match fst (_get_fallback_priority text None) with
       | MEDIUM => or_medium (_normalize_priority (dict_get result "priority"))
       | forced => priority_value forced
       end)).
Proof.
  unfold parse_override.
  destruct (_get_fallback_priority text None) as [forced reason].
  rewrite lookup_insert_eq. f_equal. f_equal.
  destruct forced; simpl; try reflexivity;
    unfold dict_get; rewrite lookup_insert_eq; simpl.
  - change (u "low") with (priority_value LOW). now rewrite normalize_canonical.
  - change (u "high") with (priority_value HIGH). now rewrite normalize_canonical.
Qed.

Lemma parse_fallback_priority (now : datetime) (text : str) (d : pydict) :
  parse_fallback now text = Ok d ->
  d !! "priority" = Some (PStr (priority_value (fst (_get_fallback_priority text None)))).
Proof.
  unfold parse_fallback.
  destruct (_get_fallback_priority text None) as [priority reason].
  destruct (_parse_relative_date now text) as [due_date|e]; simpl; [|discriminate].
  intros [= <-]. unfold fallback_dict. simpl.
  now repeat (rewrite lookup_insert_ne by discriminate); rewrite lookup_insert_eq.
Qed.

End Normalisation.

Section Override.
Context `{B : Builtins}.

(** C1, as the code has it.  Whatever dictionary [parse_natural_language]
    returns, from a provider or from the extractor, carries the priority
    the keyword scan of the text found when that is high or low, whatever
    priority the provider gave; and it does return one when some provider
    answered with a non-empty dictionary.  [recommend_priority] has no such
    override: it returns the answer of the first provider that does not
    raise as it is, and the scanned priority only when every provider
    raises. *)
Theorem parse_priority_override (self : AIService) (now : datetime) (text : str) :
  (forall log d,
     parse_natural_language self now text = (log, Ok d) ->
     (has_high_trigger text None -> d !! "priority" = Some (PStr (u "high"))) /\
     (~ has_high_trigger text None -> has_low_trigger text None ->
      d !! "priority" = Some (PStr (u "low")))) /\
  (forall r,
     first_success (fun p => p_parse_natural_language p text) (providers self) r ->
     dict_truthy r = true ->
     snd (parse_natural_language self now text) = Ok (parse_override text r)) /\
  (forall title description,
     (forall r,
        first_success (fun p => p_recommend_priority p title description) (providers self) r ->
        snd (recommend_priority self title description) = r) /\
     (all_raise (fun p => p_recommend_priority p title description) (providers self) ->
      has_high_trigger title description ->
      fst (snd (recommend_priority self title description)) = HIGH)).
Proof.
  split; [|split].
  - intros log d Hparse.
    assert (Hprio : d !! "priority" = Some (PStr (priority_value
                      (fst (_get_fallback_priority text None)))) \/
                    fst (_get_fallback_priority text None) = MEDIUM).
    { unfold parse_natural_language in Hparse.
      destruct (_try_providers _ _ _) as [log' [r|]].
      - destruct (dict_truthy r).
        + injection Hparse as _ <-. rewrite parse_override_priority.
          destruct (fst (_get_fallback_priority text None)); auto.
        + injection Hparse as _ Hd. left. now apply parse_fallback_priority with now.
      - injection Hparse as _ Hd. left. now apply parse_fallback_priority with now. }
    split.
    + intros Hhigh. rewrite (fallback_priority_high _ _ Hhigh) in Hprio.
      now destruct Hprio.
    + intros Hhigh Hlow. rewrite (fallback_priority_low _ _ Hhigh Hlow) in Hprio.
      now destruct Hprio.
  - intros r [failed [p [rest [Hps [Hall Hp]]]]] Hr.
    destruct self as [ps]. simpl in Hps. subst ps.
    now rewrite (proj1 (parse_natural_language_shape now text) failed p rest r Hall Hp Hr).
  - intros title description. split.
    + intros r [failed [p [rest [Hps [Hall Hp]]]]].
      destruct self as [ps]. simpl in Hps. subst ps.
      now rewrite (proj1 (recommend_priority_shape title description)
                     failed p rest r Hall Hp eq_refl).
    + intros Hall Hhigh. unfold recommend_priority, _try_providers.
      destruct (try_loop_all_raise "recommend_priority" _ _ None Hall) as [le ->].
      simpl. now rewrite (fallback_priority_high _ _ Hhigh).
Qed.

End Override.

Lemma has_high_trigger_urgent_build :
  has_high_trigger (u "URGENT: fix the build") None.
Proof. apply any_in_spec. vm_compute. reflexivity. Qed.

(** C1 as the specification words it fails for [recommend_priority]: the
    title has the trigger "urgent", the provider recommends medium, and
    medium is returned. *)
Lemma recommend_priority_keeps_provider_answer :
  ~ (forall (self : AIService) (title : str) (description : option str),
       has_high_trigger title description ->
       fst (snd (recommend_priority self title description)) = HIGH).
Proof.
  intros Hclaim.
  specialize (Hclaim (mkService [terse_provider "OpenAIProvider"])
                (u "URGENT: fix the build") None has_high_trigger_urgent_build).
  discriminate Hclaim.
Qed.

(** The provider that answers says low, the text says urgent. *)
Lemma parse_priority_override_witness :
  has_high_trigger (u "URGENT: fix the build") None /\
  exists d,
    snd (parse_natural_language
           (mkService [failing_provider "OpenAIProvider";
                       opinionated_provider "GoogleAIProvider" (u "low")])
           sample_now (u "URGENT: fix the build")) = Ok d /\
    d !! "priority" = Some (PStr (u "high")).
Proof.
  split; [exact has_high_trigger_urgent_build|].
  eexists. split; [reflexivity|].
  refine (proj1 (proj1 (parse_priority_override
                   (mkService [failing_provider "OpenAIProvider";
                               opinionated_provider "GoogleAIProvider" (u "low")])
                   sample_now (u "URGENT: fix the build")) _ _ _)
            has_high_trigger_urgent_build).
  reflexivity.
Defined.

(** C4 at a value the normaliser does not know.  The provider answers
    "buy milk" with the priority "Normal"; the text has no trigger, the
    normaliser lowers the value and hands it back, and the dictionary
    stores "normal", which is none of low, medium, high. *)
Theorem unrecognized_priority_is_stored :
  exists d,
    snd (parse_natural_language
           (mkService [opinionated_provider "GoogleAIProvider" (u "Normal")])
           sample_now (u "buy milk")) = Ok d /\
    d !! "priority" = Some (PStr (u "normal")) /\
    ~ In (u "normal") [u "low"; u "medium"; u "high"].
Proof.
  eexists. split; [reflexivity|]. split; [vm_compute; reflexivity|].
  vm_compute. intros [H|[H|[H|[]]]]; discriminate H.
Qed.

(** The variants the normaliser does know. *)
Lemma normalize_priority_variants :
  _normalize_priority (PStr (u "高")) = Some (u "high") /\
  _normalize_priority (PStr (u "HIGH")) = Some (u "high") /\
  _normalize_priority (PStr (u " h ")) = Some (u "high") /\
  _normalize_priority (PStr (u "Med")) = Some (u "medium") /\
  _normalize_priority (PStr (u "优先级低")) = Some (u "low") /\
  _normalize_priority PNone = None.
Proof. repeat split; vm_compute; reflexivity. Qed.

(** C2 at a text with minutes before "am".  With no provider the fallback
    reads the hour of "tomorrow 10:30 am" from the first match of
    [(\d{1,2})\s*(?:am|a\.m\.)], which is "30 am"; [replace(hour=30)]
    raises [ValueError], and nothing between it and the caller catches it. *)
Theorem parse_fallback_raises_value_error (now : datetime) :
  _parse_time_hint (u "tomorrow 10:30 am") = Some (30, 0) /\
  parse_natural_language (mkService []) now (u "tomorrow 10:30 am")
  = ([LogAllFailed "parse_natural_language" None; LogFallback "parse_natural_language"],
     Raise ValueError).
Proof. split; vm_compute; reflexivity. Qed.

(** ** Title cleanup *)

Lemma str_eqb_eq (a b : str) : str_eqb a b = true -> a = b.
Proof.
  revert b. induction a as [|x a IH]; intros [|y b]; simpl; try discriminate.
  - reflexivity.
  - intros [->%N.eqb_eq Hab%IH]%andb_true_iff. now subst.
Qed.

Section TitleCleanup.
Context `{B : Builtins}.

Lemma same_or_smaller_trans (a b c : str) :
  same_or_smaller a b -> same_or_smaller b c -> same_or_smaller a c.
Proof.
  unfold same_or_smaller. intros [-> | Hab] [-> | Hbc]; auto. right. lia.
Qed.

Lemma same_or_smaller_length (a b : str) :
  same_or_smaller a b -> (length a <= length b)%nat.
Proof. intros [-> | [Hlen _]]; [lia | exact Hlen]. Qed.

Lemma sublist_odd_spaces (a b : str) :
  a `sublist_of` b -> (odd_spaces a <= odd_spaces b)%nat.
Proof. induction 1; simpl; lia. Qed.

Lemma sublist_same_or_smaller (a b : str) : a `sublist_of` b -> same_or_smaller a b.
Proof.
  unfold same_or_smaller, title_size.
  intros Hsub.
  pose proof (sublist_odd_spaces a b Hsub) as Hodd.
  assert (Hlen : a = b \/ (length a < length b)%nat).
  { induction Hsub as [|x l1 l2 Hsub IH|x l1 l2 Hsub IH]; simpl.
    - now left.
    - destruct (IH (sublist_odd_spaces _ _ Hsub)) as [-> | Hlt]; [now left | right; lia].
    - right. destruct (IH (sublist_odd_spaces _ _ Hsub)) as [-> | Hlt]; lia. }
  destruct Hlen as [-> | Hlen]; [now left | right; lia].
Qed.

Lemma sub_from_sublist (ic : bool) (r : regex) (s : str) (prev : option cp) (skip : nat) :
  sub_from ic r [] prev s skip `sublist_of` s.
Proof.
  revert prev skip. induction s as [|c s IH]; intros prev [|n]; simpl.
  - destruct (match_at ic r prev []); constructor.
  - constructor.
  - destruct (match_at ic r prev (c :: s)) as [m|].
    + destruct (length (m_text m)).
      * apply sublist_skip, IH.
      * apply sublist_cons, IH.
    + apply sublist_skip, IH.
  - apply sublist_cons, IH.
Qed.

Lemma erase_patterns_same_or_smaller (patterns : list regex) (s : str) :
  same_or_smaller (fold_left (fun title pattern => re_sub true pattern [] title) patterns s) s.
Proof.
  revert s. induction patterns as [|r patterns IH]; intros s; simpl.
  - now left.
  - eapply same_or_smaller_trans; [apply IH|].
    apply sublist_same_or_smaller, sub_from_sublist.
Qed.

Lemma lstrip_sublist (s : str) : lstrip s `sublist_of` s.
Proof.
  induction s as [|c s IH]; simpl; [constructor|].
  destruct (py_isspace c); [now apply sublist_cons | reflexivity].
Qed.

Lemma sublist_rev (a b : str) : a `sublist_of` b -> rev a `sublist_of` rev b.
Proof.
  induction 1 as [|x l1 l2 _ IH|x l1 l2 _ IH]; simpl.
  - constructor.
  - now apply sublist_app.
  - now apply sublist_inserts_r.
Qed.

Lemma strip_sublist (s : str) : strip s `sublist_of` s.
Proof.
  unfold strip. transitivity (lstrip s); [|apply lstrip_sublist].
  rewrite <- (rev_involutive (lstrip s)) at 2.
  apply sublist_rev, lstrip_sublist.
Qed.

(** The repetition [\s*] stops at a suffix of the text. *)
Lemma star_run_rest {R} (p : cp -> bool) (prev : option cp) (s : str) (caps : captures)
    (k : option cp -> str -> captures -> option R) (x : R) :
  star_run p prev s caps k = Some x ->
  exists prev' rest, k prev' rest caps = Some x /\ (length rest <= length s)%nat.
Proof.
  revert prev. induction s as [|c s IH]; intros prev; simpl.
  - intros Hk. now exists prev, [].
  - destruct (p c).
    + destruct (star_run p (Some c) s caps k) eqn:Hrun.
      * intros [= <-]. destruct (IH _ Hrun) as [prev' [rest [Hk Hlen]]].
        exists prev', rest. split; [exact Hk | lia].
      * intros Hk. exists prev, (c :: s). split; [exact Hk | simpl; lia].
    + intros Hk. exists prev, (c :: s). split; [exact Hk | simpl; lia].
Qed.

(** A match of [\s+] starts with a whitespace character and is not empty. *)
Lemma ws1_match (prev : option cp) (c : cp) (s : str) (m : rematch) :
  match_at false re_ws1 prev (c :: s) = Some m ->
  py_isspace c = true /\
  exists n, length (m_text m) = S n /\ (n <= length s)%nat.
Proof.
  unfold match_at, re_ws1. cbn [rmatch cs_match].
  destruct (py_isspace c); [|discriminate].
  intros [prev' [rest [[= <-] Hlen]]]%star_run_rest. split; [reflexivity|].
  cbn [m_text]. rewrite length_take.
  exists (length s - length rest)%nat. simpl length. split; lia.
Qed.

Lemma ws1_no_match_at_end (prev : option cp) : match_at false re_ws1 prev [] = None.
Proof. reflexivity. Qed.

(** Collapsing whitespace: what a match drops and what is kept. *)
Lemma collapse_size (s : str) (prev : option cp) (skip : nat) :
  let out := sub_from false re_ws1 [32%N] prev s skip in
  ((length out + Nat.min skip (length s) <= length s)%nat /\
   (odd_spaces out <= odd_spaces s)%nat) /\
  (skip = 0%nat -> same_or_smaller out s).
Proof.
  revert prev skip. induction s as [|c s IH]; intros prev [|n].
  - cbn [sub_from]. rewrite ws1_no_match_at_end.
    split; [split; simpl; lia | intros _; now left].
  - split; [split; simpl; lia | discriminate].
  - cbn [sub_from].
    destruct (match_at false re_ws1 prev (c :: s)) as [m|] eqn:Hm.
    + destruct (ws1_match _ _ _ _ Hm) as [Hspace [k [-> Hk]]].
      destruct (IH (Some c) k) as [[Hlen Hodd] Hsame].
      cbn zeta in *. simpl app.
      set (out := sub_from false re_ws1 [32%N] (Some c) s k) in *.
      assert (Hodd32 : odd_space 32%N = false).
      { unfold odd_space. simpl. apply andb_false_r. }
      simpl length. simpl odd_spaces. rewrite Hodd32.
      rewrite Nat.min_l in Hlen by exact Hk.
      split; [split; [lia|]|].
      * destruct (odd_space c); lia.
      * intros _. unfold same_or_smaller, title_size.
        simpl length. simpl odd_spaces. rewrite Hodd32.
        destruct k as [|k].
        -- unfold odd_space. rewrite Hspace. simpl andb.
           destruct (N.eqb_spec c 32) as [-> | Hc]; simpl negb; cbv iota.
           ++ destruct (Hsame eq_refl) as [-> | Hlt]; [now left|].
              right. unfold title_size in Hlt. lia.
           ++ right. lia.
        -- right. destruct (odd_space c); lia.
    + destruct (IH (Some c) 0%nat) as [[Hlen Hodd] Hsame].
      cbn zeta in *.
      set (out := sub_from false re_ws1 [32%N] (Some c) s 0) in *.
      simpl length. simpl odd_spaces.
      split; [split; lia|].
      intros _. destruct (Hsame eq_refl) as [-> | Hlt]; [now left|].
      right. unfold title_size in *. simpl length. simpl odd_spaces. lia.
  - cbn [sub_from].
    destruct (IH (Some c) n) as [[Hlen Hodd] _]. cbn zeta in *.
    simpl length. simpl odd_spaces.
    split; [split|discriminate].
    + rewrite <- Nat.succ_min_distr. lia.
    + lia.
Qed.

(** A string with collapsed whitespace has no whitespace character but
    the space: [\s+] matches wherever one stands. *)
Lemma star_run_total {R} (p : cp -> bool) (prev : option cp) (s : str) (caps : captures)
    (k : option cp -> str -> captures -> option R) :
  (forall prev' rest, k prev' rest caps <> None) ->
  star_run p prev s caps k <> None.
Proof.
  intros Hk. revert prev. induction s as [|c s IH]; intros prev; simpl.
  - apply Hk.
  - destruct (p c); [|apply Hk].
    destruct (star_run p (Some c) s caps k); [discriminate | apply Hk].
Qed.

Lemma ws1_matches_space (prev : option cp) (c : cp) (s : str) :
  match_at false re_ws1 prev (c :: s) = None -> py_isspace c = false.
Proof.
  unfold match_at, re_ws1. cbn [rmatch cs_match].
  destruct (py_isspace c); [|reflexivity].
  intros Hnone. now apply star_run_total in Hnone.
Qed.

Lemma collapse_no_odd_space (s : str) (prev : option cp) (skip : nat) :
  odd_spaces (sub_from false re_ws1 [32%N] prev s skip) = 0%nat.
Proof.
  assert (Hodd32 : odd_space 32%N = false).
  { unfold odd_space. simpl. apply andb_false_r. }
  revert prev skip. induction s as [|c s IH]; intros prev [|n]; cbn [sub_from].
  - now rewrite ws1_no_match_at_end.
  - reflexivity.
  - destruct (match_at false re_ws1 prev (c :: s)) as [m|] eqn:Hm.
    + destruct (ws1_match _ _ _ _ Hm) as [_ [k [-> _]]].
      simpl. now rewrite Hodd32, IH.
    + apply ws1_matches_space in Hm. simpl. unfold odd_space at 1.
      now rewrite Hm, IH.
  - apply IH.
Qed.

Lemma erase_markers_no_odd_space (text : str) : odd_spaces (erase_markers text) = 0%nat.
Proof.
  unfold erase_markers. cbv zeta. change (u " ") with [32%N]. unfold re_sub.
  match goal with
  | |- odd_spaces (strip (sub_from true ?r [] None ?collapsed 0)) = _ =>
      pose proof (sublist_odd_spaces _ _ (strip_sublist (sub_from true r [] None collapsed 0)));
      pose proof (sublist_odd_spaces _ _ (sub_from_sublist true r collapsed None 0));
      pose proof (collapse_no_odd_space
                    (fold_left (fun title pattern => sub_from true pattern [] None title 0)
                       cleanup_patterns text) None 0) as Hzero
  end.
  change (fun title pattern => re_sub true pattern [] title)
    with (fun title pattern => sub_from true pattern [] None title 0) in *.
  lia.
Qed.

Lemma erase_markers_same_or_smaller (text : str) :
  same_or_smaller (erase_markers text) text.
Proof.
  unfold erase_markers. cbv zeta.
  eapply same_or_smaller_trans; [apply sublist_same_or_smaller, strip_sublist|].
  eapply same_or_smaller_trans; [apply sublist_same_or_smaller, sub_from_sublist|].
  eapply same_or_smaller_trans; [|apply erase_patterns_same_or_smaller].
  change (u " ") with [32%N]. unfold re_sub.
  now apply collapse_size.
Qed.

Lemma clean_title_same_or_smaller (text : str) :
  same_or_smaller (_clean_title text) text.
Proof.
  unfold _clean_title. destruct (erase_markers text) eqn:Herase; cbn [is_nil].
  - now left.
  - rewrite <- Herase. apply erase_markers_same_or_smaller.
Qed.

(** A second cleanup gives the same title or a strictly shorter one. *)
Lemma clean_title_twice (text : str) :
  _clean_title (_clean_title text) = _clean_title text \/
  (length (_clean_title (_clean_title text)) < length (_clean_title text))%nat.
Proof.
  assert (Hfirst : _clean_title text = text \/ odd_spaces (_clean_title text) = 0%nat).
  { unfold _clean_title. destruct (erase_markers text) eqn:Herase; cbn [is_nil].
    - now left.
    - right. rewrite <- Herase. apply erase_markers_no_odd_space. }
  destruct Hfirst as [Hsame | Hodd].
  - left. now rewrite !Hsame.
  - destruct (clean_title_same_or_smaller (_clean_title text)) as [Heq | [_ Hlt]];
      [now left | right].
    unfold title_size in Hlt. lia.
Qed.

Lemma clean_title_fixed_point (bound : nat) (text : str) :
  (title_size text <= bound)%nat ->
  exists n, (n <= bound)%nat /\
    Nat.iter (S n) _clean_title text = Nat.iter n _clean_title text.
Proof.
  revert text. induction bound as [|bound IH]; intros text Hsize;
    destruct (clean_title_same_or_smaller text) as [Hsame | Hsmaller].
  - exists 0%nat. split; [lia | exact Hsame].
  - lia.
  - exists 0%nat. split; [lia | exact Hsame].
  - destruct (IH (_clean_title text)) as [n [Hn Hiter]]; [lia|].
    exists (S n). split; [lia|].
    pose proof (fun k => Nat.iter_succ_r k _clean_title text) as Hshift.
    rewrite (Hshift (S n)), (Hshift n). exact Hiter.
Qed.

Lemma clean_title_unchanged_iff (title : str) :
  _clean_title title = title <-> erase_markers title = [] \/ erase_markers title = title.
Proof.
  unfold _clean_title. destruct (erase_markers title) eqn:Herase; cbn [is_nil].
  - split; [now left | reflexivity].
  - split; [now right | now intros [? | ?]].
Qed.

(** C6, as the code has it.  A second cleanup returns the cleaned title
    unchanged exactly when its erasures leave that title as it is or erase
    all of it; in every other case it returns a strictly shorter title.
    Cleanup never lengthens a text, and repeating it reaches a fixed point
    after at most [length text + 1] passes. *)
Theorem clean_title_reaches_fixed_point (text : str) :
  (_clean_title (_clean_title text) = _clean_title text <->
   erase_markers (_clean_title text) = [] \/
   erase_markers (_clean_title text) = _clean_title text) /\
  (_clean_title (_clean_title text) = _clean_title text \/
   (length (_clean_title (_clean_title text)) < length (_clean_title text))%nat) /\
  (length (_clean_title text) <= length text)%nat /\
  (exists passes,
     (passes <= S (length text))%nat /\
     Nat.iter (S passes) _clean_title text = Nat.iter passes _clean_title text).
Proof.
  split; [apply clean_title_unchanged_iff|].
  split; [apply clean_title_twice|].
  split; [apply same_or_smaller_length, clean_title_same_or_smaller|].
  destruct (erase_markers text) as [|c0 r0] eqn:Herase.
  - exists 0%nat. split; [lia|]. simpl. unfold _clean_title. now rewrite Herase.
  - assert (Hclean : _clean_title text = erase_markers text).
    { unfold _clean_title. now rewrite Herase. }
    destruct (clean_title_fixed_point (length text) (_clean_title text))
      as [n [Hn Hiter]].
    + rewrite Hclean. unfold title_size. rewrite erase_markers_no_odd_space.
      pose proof (same_or_smaller_length _ _ (erase_markers_same_or_smaller text)). lia.
    + exists (S n). split; [lia|].
      pose proof (fun k => Nat.iter_succ_r k _clean_title text) as Hshift.
      rewrite (Hshift (S n)), (Hshift n). exact Hiter.
Qed.

(** C7, as the code has it.  When the erasures leave nothing the input is
    returned as it is; the title of a non-empty input is never empty. *)
Theorem clean_title_falls_back_to_input (text : str) :
  (erase_markers text = [] -> _clean_title text = text) /\
  (text <> [] -> _clean_title text <> []).
Proof.
  unfold _clean_title. split.
  - now intros ->.
  - intros Htext. now destruct (erase_markers text).
Qed.

End TitleCleanup.

(** C6 as the specification words it fails: cleanup erases the comma of
    "buy milk ur,gent" last and leaves "buy milk urgent", from which a
    second cleanup erases "urgent". *)
Lemma clean_title_not_idempotent :
  _clean_title (u "buy milk ur,gent") = u "buy milk urgent" /\
  _clean_title (_clean_title (u "buy milk ur,gent")) = u "buy milk" /\
  _clean_title (_clean_title (u "buy milk ur,gent")) <> _clean_title (u "buy milk ur,gent").
Proof. split; [|split]; vm_compute; [reflexivity | reflexivity | discriminate]. Qed.

(** C7 as the specification words it fails: the title of the empty input
    is empty. *)
Lemma clean_title_of_empty_input :
  ~ (forall (B : Builtins) (text : str), @_clean_title B text <> []).
Proof. intros Hclaim. now apply (Hclaim cpython_tables []). Qed.

(** A text that is all marker is its own title. *)
Lemma clean_title_falls_back_to_input_witness :
  (erase_markers (u "urgent!") = [] /\ u "urgent!" <> []) /\
  _clean_title (u "urgent!") = u "urgent!" /\
  _clean_title (u "urgent!") <> [].
Proof.
  assert (Herase : erase_markers (u "urgent!") = []) by (vm_compute; reflexivity).
  assert (Htext : u "urgent!" <> []) by (vm_compute; discriminate).
  split; [now split|]. split.
  - exact (proj1 (clean_title_falls_back_to_input (u "urgent!")) Herase).
  - exact (proj2 (clean_title_falls_back_to_input (u "urgent!")) Htext).
Defined.

(** ** Relative dates *)

Lemma weekday_range (d : datetime) : 0 <= weekday d <= 6.
Proof. unfold weekday. pose proof (Z.mod_pos_bound (dt_day d + 6) 7). lia. Qed.

Lemma weekday_map_en_range (text_lower : str) (day_name : str) (day_num : Z) :
  List.find (fun entry => contains (fst entry) text_lower) weekday_map_en
  = Some (day_name, day_num) ->
  0 <= day_num <= 6.
Proof.
  intros [Hin _]%find_some. unfold weekday_map_en in Hin.
  repeat (destruct Hin as [Hin|Hin]; [injection Hin as _ <-; lia|]).
  destruct Hin.
Qed.

Section RelativeDates.
Context `{B : Builtins}.

(** The branch of "next": the offset is 1 to 7 days and lands on the
    weekday the loop over the table found. *)
Lemma next_weekday_offset (now : datetime) (text : str) (day_num : Z) :
  next_weekday_input text day_num ->
  exists delta,
    1 <= delta <= 7 /\
    weekday (add_days now delta) = day_num /\
    (weekday now = day_num -> delta = 7) /\
    relative_base now text = Ok (Some (add_days now delta)) /\
    (_parse_time_hint text = None ->
     _parse_relative_date now text
     = Ok (Some (mkDatetime (dt_day now + delta) 23 59 0 0))) /\
    (forall due,
       _parse_relative_date now text = Ok due ->
       exists d, due = Some d /\ dt_day d = dt_day now + delta /\ dt_day now < dt_day d).
Proof.
  intros (Hcue & Hnext & day_name & Hfind).
  pose proof (weekday_map_en_range _ _ _ Hfind) as Hday.
  pose proof (weekday_range now) as Hnow.
  unfold has_day_cue in Hcue. cbv zeta in Hcue.
  rewrite !orb_false_iff in Hcue.
  destruct Hcue as [[[H1 H2] [H3 H4]] [H5 H6]].
  set (delta0 := (day_num - weekday now + 7) mod 7).
  exists (if delta0 =? 0 then 7 else delta0).
  assert (Hbase : relative_base now text
                  = Ok (Some (add_days now (if delta0 =? 0 then 7 else delta0)))).
  { cbv beta zeta delta [relative_base].
    now rewrite H1, H2, H3, H4, H5, H6, Hnext, Hfind. }
  assert (Hrange : 1 <= (if delta0 =? 0 then 7 else delta0) <= 7).
  { pose proof (Z.mod_pos_bound (day_num - weekday now + 7) 7).
    fold delta0 in H. destruct (Z.eqb_spec delta0 0); lia. }
  split; [exact Hrange|]. split; [|split; [|split; [exact Hbase|split]]].
  - unfold weekday in *. subst delta0. simpl.
    destruct (Z.eqb_spec ((day_num - (dt_day now + 6) mod 7 + 7) mod 7) 0);
      Z.div_mod_to_equations; lia.
  - intros Heq. subst delta0. rewrite Heq.
    replace (day_num - day_num + 7) with 7 by lia. reflexivity.
  - intros Hhint. unfold _parse_relative_date. rewrite Hbase, Hhint. reflexivity.
  - intros due. unfold _parse_relative_date. rewrite Hbase. simpl obind.
    destruct (_parse_time_hint text) as [[hour minute]|]; unfold replace_time;
      try destruct (_ && _); simpl; try discriminate;
      intros [= <-]; eexists; (split; [reflexivity|]); simpl; lia.
Qed.

Lemma find_first {A} (f : A -> bool) (before after : list A) (x : A) :
  Forall (fun entry => f entry = false) before -> f x = true ->
  List.find f (before ++ x :: after) = Some x.
Proof.
  intros Hbefore Hx. induction Hbefore as [|y before Hy _ IH]; simpl.
  - now rewrite Hx.
  - now rewrite Hy.
Qed.

Lemma not_contains (w s : str) : ~ Substring w s -> contains w s = false.
Proof.
  intros Hno. destruct (contains w s) eqn:Hc; [|reflexivity].
  now apply contains_spec in Hc.
Qed.

(** A request as the vocabulary words it is an input of the branch. *)
Lemma next_weekday_request_input (text : str) (day_num : Z) :
  next_weekday_request text day_num -> next_weekday_input text day_num.
Proof.
  intros [[Hzh Hen] [Hnext [before [day_name [after [Htable [Hname Hbefore]]]]]]].
  rewrite List.Forall_forall in Hzh, Hen.
  split; [|split].
  - unfold has_day_cue. cbv zeta.
    rewrite (not_contains (u "今天") text) by (apply Hzh; now left).
    rewrite (not_contains (u "明天") text) by (apply Hzh; right; now left).
    rewrite (not_contains (u "后天") text) by (apply Hzh; right; right; now left).
    rewrite (not_contains (u "today") (py_lower text)) by (apply Hen; now left).
    rewrite (not_contains (u "tomorrow") (py_lower text))
      by (apply Hen; right; now left).
    rewrite (not_contains (u "day after tomorrow") (py_lower text))
      by (apply Hen; right; right; now left).
    reflexivity.
  - now apply contains_spec.
  - exists day_name. rewrite Htable. apply find_first.
    + eapply Forall_impl; [exact Hbefore|]. intros entry Hno. now apply not_contains.
    + now apply contains_spec.
Qed.

(** C8, as the code has it.  On a text with no literal day cue that
    contains "next" and names a weekday, the relative-date pass adds
    between 1 and 7 days to the current date and lands on the weekday named
    (the first in the order of the table when several are): the next
    occurrence of that weekday strictly after today, a week ahead when
    today is that weekday.  The date it returns is that day (at 23:59 when
    the text has no time of day), never the current date. *)
Theorem next_weekday_is_strictly_after_today (now : datetime) (text : str) (day_num : Z) :
  next_weekday_request text day_num ->
  exists delta,
    1 <= delta <= 7 /\
    weekday (add_days now delta) = day_num /\
    (weekday now = day_num -> delta = 7) /\
    relative_base now text = Ok (Some (add_days now delta)) /\
    (_parse_time_hint text = None ->
     _parse_relative_date now text
     = Ok (Some (mkDatetime (dt_day now + delta) 23 59 0 0))) /\
    (forall due,
       _parse_relative_date now text = Ok due ->
       exists d, due = Some d /\ dt_day d = dt_day now + delta /\ dt_day now < dt_day d).
Proof.
  intros Hrequest. apply next_weekday_offset.
  now apply next_weekday_request_input.
Qed.

End RelativeDates.

(** "Next Monday", read on a Monday, is the Monday a week ahead. *)
Lemma next_weekday_is_strictly_after_today_witness :
  (next_weekday_request (u "Next Monday") 0 /\ weekday sample_now = 0) /\
  exists delta,
    1 <= delta <= 7 /\
    weekday (add_days sample_now delta) = 0 /\
    (weekday sample_now = 0 -> delta = 7) /\
    relative_base sample_now (u "Next Monday") = Ok (Some (add_days sample_now delta)) /\
    (_parse_time_hint (u "Next Monday") = None ->
     _parse_relative_date sample_now (u "Next Monday")
     = Ok (Some (mkDatetime (dt_day sample_now + delta) 23 59 0 0))) /\
    (forall due,
       _parse_relative_date sample_now (u "Next Monday") = Ok due ->
       exists d, due = Some d /\ dt_day d = dt_day sample_now + delta /\
                 dt_day sample_now < dt_day d).
Proof.
  assert (Hinput : next_weekday_request (u "Next Monday") 0).
  { split; [|split].
    - split; repeat constructor; intros Hcue%contains_spec; vm_compute in Hcue;
        discriminate.
    - apply contains_spec. vm_compute. reflexivity.
    - exists [], (u "monday"), (tl weekday_map_en).
      split; [reflexivity|]. split; [|constructor].
      apply contains_spec. vm_compute. reflexivity. }
  split; [split; [exact Hinput | reflexivity]|].
  exact (next_weekday_is_strictly_after_today sample_now (u "Next Monday") 0 Hinput).
Defined.

(** C8 as the specification words it fails.  A literal day cue is tested
    before "next": "next monday, not today" is due today.  The weekday is
    the first of the table that occurs, not the one after "next": read on
    a Monday, "next friday, after the monday sync" is due the Monday a
    week ahead. *)
Lemma next_weekday_yields_to_other_cues :
  _parse_relative_date sample_now (u "next monday, not today")
  = Ok (Some (mkDatetime (dt_day sample_now) 23 59 0 0)) /\
  _parse_relative_date sample_now (u "next friday, after the monday sync")
  = Ok (Some (mkDatetime (dt_day sample_now + 7) 23 59 0 0)) /\
  ~ (forall (now : datetime) (text day_name : str) (day_num : Z),
       In (day_name, day_num) weekday_map_en ->
       Substring (u "next " ++ day_name) (py_lower text) ->
       exists d, _parse_relative_date now text = Ok (Some d) /\
                 dt_day now < dt_day d /\ weekday d = day_num).
Proof.
  split; [vm_compute; reflexivity|]. split; [vm_compute; reflexivity|].
  intros Hclaim.
  destruct (Hclaim sample_now (u "next monday, not today") (u "monday") 0)
    as [d [Hdue [Hlater _]]].
  - now left.
  - apply contains_spec. vm_compute. reflexivity.
  - vm_compute in Hdue. injection Hdue as <-. vm_compute in Hlater. discriminate.
Qed.

(** ** The example of the specification *)

Lemma example_priority :
  _get_fallback_priority (u "明天下午3点提醒我开会，很重要") None
  = (HIGH, u "Based on keywords: contains urgent/important words").
Proof. vm_compute. reflexivity. Qed.

Lemma example_due_date (now : datetime) :
  _parse_relative_date now (u "明天下午3点提醒我开会，很重要")
  = Ok (Some (mkDatetime (dt_day now + 1) 15 0 0 0)).
Proof. vm_compute. reflexivity. Qed.

Lemma example_title :
  _clean_title (u "明天下午3点提醒我开会，很重要") = u "提醒我开会".
Proof. vm_compute. reflexivity. Qed.

Lemma example_parse (now : datetime) :
  parse_natural_language (mkService []) now (u "明天下午3点提醒我开会，很重要")
  = ([LogAllFailed "parse_natural_language" None; LogFallback "parse_natural_language"],
     Ok (fallback_dict (u "提醒我开会") HIGH (Some (mkDatetime (dt_day now + 1) 15 0 0 0)))).
Proof.
  unfold parse_natural_language, _try_providers. simpl try_loop. cbv iota beta.
  unfold parse_fallback.
  now rewrite example_priority, example_due_date, example_title.
Qed.

Lemma fallback_dict_fields (title : str) (priority : TaskPriority) (due : datetime) :
  let d := fallback_dict title priority (Some due) in
  d !! "priority" = Some (PStr (priority_value priority)) /\
  d !! "due_date" = Some (PStr (py_isoformat due)) /\
  d !! "title" = Some (PStr title) /\
  d !! "description" = Some PNone /\
  d !! "tags" = Some (PList []).
Proof.
  unfold fallback_dict. simpl list_to_map.
  repeat split; repeat (rewrite lookup_insert_ne by discriminate); now rewrite lookup_insert_eq.
Qed.

(** C9, as the code has it.  With no provider, parsing
    "明天下午3点提醒我开会，很重要" gives the priority high, the due date
    tomorrow at 15:00, the title "提醒我开会" and an empty tag list: the
    fallback of [parse_natural_language] infers no tags.  (Tag inference
    on this text gives the single label "Work".) *)
Theorem parse_example_without_providers (now : datetime) :
  exists d,
    parse_natural_language (mkService []) now (u "明天下午3点提醒我开会，很重要")
    = ([LogAllFailed "parse_natural_language" None; LogFallback "parse_natural_language"],
       Ok d) /\
    d !! "priority" = Some (PStr (u "high")) /\
    d !! "due_date" = Some (PStr (py_isoformat (mkDatetime (dt_day now + 1) 15 0 0 0))) /\
    d !! "title" = Some (PStr (u "提醒我开会")) /\
    d !! "description" = Some PNone /\
    d !! "tags" = Some (PList []) /\
    _get_fallback_tags (u "明天下午3点提醒我开会，很重要") None = [u "Work"].
Proof.
  eexists. split; [apply example_parse|].
  pose proof (fallback_dict_fields (u "提醒我开会") HIGH
                (mkDatetime (dt_day now + 1) 15 0 0 0)) as (Hp & Hd & Ht & Hn & Hg).
  split; [exact Hp|]. split; [exact Hd|]. split; [exact Ht|].
  split; [exact Hn|]. split; [exact Hg|]. vm_compute. reflexivity.
Qed.

(** C9 as the specification words it fails: the tag list of the parse
    result holds no label at all. *)
Lemma parse_example_has_no_tags :
  ~ (exists d tags tag,
       snd (parse_natural_language (mkService []) sample_now
              (u "明天下午3点提醒我开会，很重要")) = Ok d /\
       d !! "tags" = Some (PList tags) /\
       In tag tags).
Proof.
  intros (d & tags & tag & Hparse & Htags & Hin).
  rewrite example_parse in Hparse. cbn [snd] in Hparse. injection Hparse as <-.
  pose proof (fallback_dict_fields (u "提醒我开会") HIGH
                (mkDatetime (dt_day sample_now + 1) 15 0 0 0)) as (_ & _ & _ & _ & Hg).
  assert (Hnil : Some (PList tags) = Some (PList [])) by (rewrite <- Htags; exact Hg).
  injection Hnil as ->. destruct Hin.
Qed.

(** * Further properties of the extractor and the orchestrator *)

(** ** Lists of strings *)

Lemma str_eqb_refl (a : str) : str_eqb a a = true.
Proof. induction a as [|x a IH]; simpl; [reflexivity|]. now rewrite N.eqb_refl. Qed.

Lemma str_in_In (x : str) (l : list str) : str_in x l = true <-> In x l.
Proof.
  unfold str_in. rewrite existsb_exists. split.
  - intros [y [Hin Heq%str_eqb_eq]]. now subst.
  - intros Hin. exists x. split; [exact Hin | apply str_eqb_refl].
Qed.

Lemma nodupb_NoDup (l : list str) : nodupb l = true -> List.NoDup l.
Proof.
  induction l as [|x l IH]; simpl; [constructor|].
  intros [Hx Hl]%andb_true_iff. constructor; [|now apply IH].
  intros Hin%str_in_In. now rewrite Hin in Hx.
Qed.

Lemma any_in_app (ws1 ws2 : list str) (content : str) :
  any_in (ws1 ++ ws2) content = any_in ws1 content || any_in ws2 content.
Proof. unfold any_in. apply existsb_app. Qed.

Lemma any_in_member (w : str) (ws : list str) (content : str) :
  In w ws -> any_in ws content = false -> contains w content = false.
Proof.
  intros Hin Hnone. apply not_true_is_false. intros Hw.
  assert (Hany : any_in ws content = true) by (apply existsb_exists; eauto).
  congruence.
Qed.


(** ** Tag inference *)

Lemma forall_bool_spec (f : bool -> bool) :
  forall_bool f = true -> forall b, f b = true.
Proof. unfold forall_bool. intros [Ht Hf]%andb_true_iff []; assumption. Qed.

(** Instantiate a nest of [forall_bool] at the given outcomes. *)
Ltac at_outcomes H bs :=
  lazymatch bs with
  | nil => idtac
  | ?x :: ?xs =>
      apply forall_bool_spec with (b := x) in H; cbv beta in H; at_outcomes H xs
  end.

Lemma tags_from_well_formed :
  forall_bool (fun a => forall_bool (fun b => forall_bool (fun c =>
  forall_bool (fun d => forall_bool (fun e => forall_bool (fun f =>
  forall_bool (fun g => forall_bool (fun h => forall_bool (fun i =>
  forall_bool (fun j => forall_bool (fun k => forall_bool (fun l =>
  forall_bool (fun m => forall_bool (fun n => forall_bool (fun o =>
    tags_well_formed (tags_from a b c d e f g h i j k l m n o)))))))))))))))) = true.
Proof. vm_compute. reflexivity. Qed.

Lemma tags_from_test :
  forall_bool (fun b => forall_bool (fun c =>
  forall_bool (fun d => forall_bool (fun e => forall_bool (fun f =>
  forall_bool (fun h => forall_bool (fun i =>
  forall_bool (fun j => forall_bool (fun k => forall_bool (fun l =>
  forall_bool (fun m => forall_bool (fun n => forall_bool (fun o =>
    work_then_study (tags_from true b c d e f true h i j k l m n o)))))))))))))) = true.
Proof. vm_compute. reflexivity. Qed.

Section TagInference.
Context `{B : Builtins}.

Lemma fallback_tags_from (title : str) (description : option str) :
  let content := content_of title description in
  _get_fallback_tags title description
  = tags_from
      (any_in work_keywords content)
      (any_in (map u ["meeting"; "会议"; "conference"; "call"]) content)
      (any_in (map u ["code"; "代码"; "programming"; "program"; "coding"]) content)
      (any_in (map u ["review"; "审查"; "check"; "检查"]) content)
      (any_in (map u ["project"; "项目"]) content)
      (any_in (map u ["report"; "报告"]) content)
      (any_in study_keywords content) (any_in shopping_keywords content)
      (any_in health_keywords content) (any_in personal_keywords content)
      (any_in finance_keywords content) (any_in travel_keywords content)
      (contains (u "meeting") content || contains (u "会议") content)
      (contains (u "code") content || contains (u "代码") content)
      (contains (u "review") content || contains (u "审查") content).
Proof. reflexivity. Qed.

Lemma fallback_tags_well_formed (title : str) (description : option str) :
  tags_well_formed (_get_fallback_tags title description) = true.
Proof.
  rewrite fallback_tags_from. cbv zeta.
  pose proof tags_from_well_formed as H.
  repeat match goal with
  | |- tags_well_formed (tags_from ?a ?b ?c ?d ?e ?f ?g ?h ?i ?j ?k ?l ?m ?n ?o) = true =>
      at_outcomes H (a :: b :: c :: d :: e :: f :: g :: h :: i :: j :: k :: l :: m :: n :: o :: nil)
  end.
  exact H.
Qed.

(** X1. Tag inference gives between one and three labels, all taken from
    the twelve category labels and none of them twice; the label "Other"
    of the last line of the function is never given. *)
Theorem fallback_tags_one_to_three_labels (title : str) (description : option str) :
  let tags := _get_fallback_tags title description in
  (1 <= length tags <= 3)%nat /\
  List.NoDup tags /\
  (forall tag, In tag tags -> In tag tag_labels) /\
  ~ In (u "Other") tags.
Proof.
  intros tags. pose proof (fallback_tags_well_formed title description) as Hwf.
  fold tags in Hwf. unfold tags_well_formed in Hwf.
  rewrite !andb_true_iff in Hwf. destruct Hwf as [[[Hne Hlen%Nat.leb_le] Hall] Hdup].
  assert (Hmem : forall tag, In tag tags -> In tag tag_labels).
  { intros tag Hin. rewrite forallb_forall in Hall. now apply str_in_In, Hall. }
  split; [|split; [now apply nodupb_NoDup|split; [exact Hmem|]]].
  - destruct tags; [discriminate | simpl in *; lia].
  - intros Hin%Hmem. vm_compute in Hin.
    repeat (destruct Hin as [Hin|Hin]; [discriminate Hin|]). destruct Hin.
Qed.

(** X2. A content without any keyword of the seven categories gets the single
    label "Work": the tests for meeting, code and review of the default
    branch can never succeed there, since their keywords are work keywords. *)
Theorem fallback_tags_default_is_work (title : str) (description : option str) :
  any_in category_keywords (content_of title description) = false ->
  _get_fallback_tags title description = [u "Work"].
Proof.
  unfold category_keywords. rewrite !any_in_app, !orb_false_iff.
  intros (Hwork & Hstudy & Hshop & Hhealth & Hpers & Hfin & Htravel).
  rewrite fallback_tags_from. cbv zeta.
  rewrite Hwork, Hstudy, Hshop, Hhealth, Hpers, Hfin, Htravel.
  assert (Hw : forall w, In w work_keywords ->
                 contains w (content_of title description) = false)
    by (intros w Hin; now apply any_in_member with work_keywords).
  rewrite (Hw (u "meeting")), (Hw (u "会议")), (Hw (u "code")), (Hw (u "代码")),
          (Hw (u "review")), (Hw (u "审查"))
    by (vm_compute; tauto).
  reflexivity.
Qed.

(** X3. The keyword "test" is in the work lexicon and in the study
    lexicon: a content in which it occurs (as in "testing" or "latest")
    gets a label of the work family first and the label "Study" second. *)
Theorem fallback_tags_test_is_study (title : str) (description : option str) :
  contains (u "test") (content_of title description) = true ->
  exists first rest,
    _get_fallback_tags title description = first :: u "Study" :: rest /\
    In first (map u ["Meeting"; "Code"; "Review"; "Project"; "Report"; "Work"]).
Proof.
  intros Htest.
  assert (Hwork : any_in work_keywords (content_of title description) = true).
  { apply existsb_exists. exists (u "test"). split; [vm_compute; tauto | exact Htest]. }
  assert (Hstudy : any_in study_keywords (content_of title description) = true).
  { apply existsb_exists. exists (u "test"). split; [vm_compute; tauto | exact Htest]. }
  rewrite fallback_tags_from. cbv zeta. rewrite Hwork, Hstudy.
  pose proof tags_from_test as H.
  repeat match goal with
  | |- context [tags_from true ?b ?c ?d ?e ?f true ?h ?i ?j ?k ?l ?m ?n ?o] =>
      at_outcomes H (b :: c :: d :: e :: f :: h :: i :: j :: k :: l :: m :: n :: o :: nil);
      destruct (tags_from true b c d e f true h i j k l m n o) as [|first [|second rest]];
      try discriminate H
  end.
  apply andb_true_iff in H as [Hfirst%str_in_In Hsecond%str_eqb_eq]. subst second.
  now exists first, rest.
Qed.

End TagInference.

(** ** What the orchestrated operations always return *)

Section AlwaysAnswers.
Context `{B : Builtins}.

Lemma fallback_tags_not_empty (title : str) (description : option str) :
  _get_fallback_tags title description <> [].
Proof.
  pose proof (fallback_tags_well_formed title description) as Hwf.
  intros Hnil. rewrite Hnil in Hwf. discriminate Hwf.
Qed.

(** X4. Whatever the providers do, [suggest_tags] returns at least one tag
    and [breakdown_task] at least one subtask: an empty answer of a provider
    is replaced by the extractor's, which is never empty. *)
Theorem suggest_tags_and_breakdown_never_empty
    (self : AIService) (title task_description : str) (description : option str) :
  snd (suggest_tags self title description) <> [] /\
  snd (breakdown_task self task_description) <> [].
Proof.
  split.
  - unfold suggest_tags. destruct (_try_providers _ _ _) as [log [[|tag tags]|]];
      simpl; try discriminate; apply fallback_tags_not_empty.
  - unfold breakdown_task. destruct (_try_providers _ _ _) as [log [[|st sts]|]];
      simpl; discriminate.
Qed.

End AlwaysAnswers.

(** ** The normaliser *)

Section Normaliser.
Context `{B : Builtins}.

(** A string with a property no member of the list has is not in the list. *)
Lemma str_in_excluded (P : str -> bool) (x : str) (l : list str) :
  forallb (fun k => negb (P k)) l = true -> P x = true -> str_in x l = false.
Proof.
  intros Hl Hx. apply not_true_is_false. intros Hin%str_in_In.
  rewrite forallb_forall in Hl. specialize (Hl x Hin). now rewrite Hx in Hl.
Qed.

(** X5. The normaliser answers [None] exactly for a falsy value.  For any
    other value whose stripped, lowered text contains "高" it answers
    "high", also when the text contains "低" or "中" as well; a text with
    "低" and without "高" gives "low", also when it contains "中". *)
Theorem normalize_priority_fuzzy_order (value : pyval) :
  (_normalize_priority value = None <-> py_truthy value = false) /\
  (py_truthy value = true ->
   contains (u "高") (normalized_text value) = true ->
   _normalize_priority value = Some (u "high")) /\
  (py_truthy value = true ->
   contains (u "高") (normalized_text value) = false ->
   contains (u "低") (normalized_text value) = true ->
   _normalize_priority value = Some (u "low")).
Proof.
  unfold _normalize_priority. fold (normalized_text value).
  split; [|split].
  - destruct (py_truthy value); cbn [negb].
    + split; [|discriminate].
      repeat match goal with
      | |- context [if ?b then _ else _] => destruct b
      end; discriminate.
    + now split.
  - intros -> Hhigh. cbn [negb].
    destruct (str_in (normalized_text value) (map u ["high"; "h"; "高"; "高优先级"; "优先级高"]));
      [reflexivity|].
    rewrite (str_in_excluded (contains (u "高")) _
               (map u ["medium"; "med"; "中"; "中优先级"; "优先级中"])) by (reflexivity || exact Hhigh).
    rewrite (str_in_excluded (contains (u "高")) _
               (map u ["low"; "l"; "低"; "低优先级"; "优先级低"])) by (reflexivity || exact Hhigh).
    now rewrite Hhigh.
  - intros -> Hhigh Hlow. cbn [negb].
    set (low_only := fun k => contains (u "低") k && negb (contains (u "高") k)).
    assert (Hboth : low_only (normalized_text value) = true)
      by (unfold low_only; now rewrite Hhigh, Hlow).
    rewrite (str_in_excluded low_only _ (map u ["high"; "h"; "高"; "高优先级"; "优先级高"]))
      by (reflexivity || exact Hboth).
    rewrite (str_in_excluded (contains (u "低")) _
               (map u ["medium"; "med"; "中"; "中优先级"; "优先级中"])) by (reflexivity || exact Hlow).
    destruct (str_in (normalized_text value) (map u ["low"; "l"; "低"; "低优先级"; "优先级低"]));
      [reflexivity|].
    now rewrite Hhigh, Hlow.
Qed.

End Normaliser.

(** ** The dictionaries [parse_natural_language] returns *)

Section ParseResults.
Context `{B : Builtins}.

Lemma or_medium_not_empty (x : option str) : or_medium x <> [].
Proof. destruct x as [[|c s]|]; simpl; discriminate. Qed.

Lemma lstrip_all_space (s : str) : forallb py_isspace s = true -> lstrip s = [].
Proof.
  induction s as [|c s IH]; simpl; [reflexivity|].
  intros [-> Hs]%andb_true_iff. now apply IH.
Qed.

Lemma normalize_blank (value : pyval) :
  blank_value value = true -> or_medium (_normalize_priority value) = u "medium".
Proof.
  unfold _normalize_priority.
  destruct value as [|s|l]; simpl; [reflexivity| |].
  - intros Hblank. destruct s as [|c s]; [reflexivity|]. cbn [is_nil negb].
    unfold strip. rewrite (lstrip_all_space _ Hblank). cbn [rev lstrip app].
    rewrite (py_lower_ascii []) by reflexivity. reflexivity.
  - destruct l; [reflexivity | discriminate].
Qed.

(** X6. When the first provider that does not raise answers with a
    non-empty dictionary, [parse_natural_language] returns that dictionary
    with every key other than "priority" as the provider gave it, and with
    a "priority" that is a non-empty string, whether or not the provider
    gave one. *)
Theorem parse_keeps_provider_fields (self : AIService) (now : datetime) (text : str)
    (r : pydict) :
  first_success (fun p => p_parse_natural_language p text) (providers self) r ->
  dict_truthy r = true ->
  exists d,
    snd (parse_natural_language self now text) = Ok d /\
    (forall k : string, k <> "priority"%string -> d !! k = r !! k) /\
    exists s, d !! "priority" = Some (PStr s) /\ s <> [].
Proof.
  intros [failed [p [rest [Hps [Hall Hp]]]]] Hr.
  destruct self as [ps]. simpl in Hps. subst ps.
  exists (parse_override text r). split; [|split].
  - now rewrite (proj1 (parse_natural_language_shape now text) failed p rest r Hall Hp Hr).
  - intros k Hk. unfold parse_override.
    destruct (_get_fallback_priority text None) as [forced reason].
    rewrite lookup_insert_ne by congruence.
    destruct (negb (priority_eqb forced MEDIUM)); [|reflexivity].
    now rewrite lookup_insert_ne by congruence.
  - rewrite parse_override_priority. eexists. split; [reflexivity|].
    destruct (fst (_get_fallback_priority text None));
      [vm_compute; discriminate | apply or_medium_not_empty | vm_compute; discriminate].
Qed.

(** X7. When the text has no priority trigger and the provider's
    dictionary has no "priority", or has [None], an empty string, a string
    of whitespace or an empty list there, the priority stored is
    "medium". *)
Theorem parse_blank_priority_is_medium (self : AIService) (now : datetime) (text : str)
    (r : pydict) :
  first_success (fun p => p_parse_natural_language p text) (providers self) r ->
  dict_truthy r = true ->
  fst (_get_fallback_priority text None) = MEDIUM ->
  blank_value (dict_get r "priority") = true ->
  exists d,
    snd (parse_natural_language self now text) = Ok d /\
    d !! "priority" = Some (PStr (u "medium")).
Proof.
  intros [failed [p [rest [Hps [Hall Hp]]]]] Hr Hscan Hblank.
  destruct self as [ps]. simpl in Hps. subst ps.
  exists (parse_override text r). split.
  - now rewrite (proj1 (parse_natural_language_shape now text) failed p rest r Hall Hp Hr).
  - rewrite parse_override_priority, Hscan. now rewrite normalize_blank.
Qed.

(** X8. When every provider raises or none is configured, a dictionary
    that [parse_natural_language] returns has exactly the keys "title",
    "description", "priority", "due_date" and "tags": the title is the
    cleaned text, the description is [None], the tag list is empty, and the
    priority is one of "low", "medium" and "high". *)
Theorem parse_fallback_dictionary (self : AIService) (now : datetime) (text : str)
    (d : pydict) :
  all_raise (fun p => p_parse_natural_language p text) (providers self) ->
  snd (parse_natural_language self now text) = Ok d ->
  dom d = list_to_set ["title"; "description"; "priority"; "due_date"; "tags"]%string /\
  d !! "title" = Some (PStr (_clean_title text)) /\
  d !! "description" = Some PNone /\
  d !! "tags" = Some (PList []) /\
  exists priority, d !! "priority" = Some (PStr (priority_value priority)).
Proof.
  intros Hall. unfold parse_natural_language, _try_providers.
  destruct (try_loop_all_raise "parse_natural_language" _ _ None Hall) as [le ->].
  cbn [snd]. unfold parse_fallback.
  destruct (_get_fallback_priority text None) as [priority reason].
  destruct (_parse_relative_date now text) as [due|e]; simpl obind; [|discriminate].
  intros [= <-]. unfold fallback_dict. cbn [list_to_map foldr uncurry].
  split; [|split; [|split; [|split]]].
  - rewrite !dom_insert_L, dom_empty_L. cbn [list_to_set foldr]. set_solver.
  - now rewrite lookup_insert_eq.
  - rewrite lookup_insert_ne by discriminate. now rewrite lookup_insert_eq.
  - repeat (rewrite lookup_insert_ne by discriminate). now rewrite lookup_insert_eq.
  - exists priority. repeat (rewrite lookup_insert_ne by discriminate).
    now rewrite lookup_insert_eq.
Qed.

End ParseResults.

(** ** Relative dates, the other cues *)

Lemma take_length_diff {A} (pre rest : list A) :
  take (length (pre ++ rest) - length rest) (pre ++ rest) = pre.
Proof.
  rewrite length_app. replace (length pre + length rest - length rest)%nat with (length pre) by lia.
  now rewrite take_app_length.
Qed.

Section ChineseWeek.
Context `{B : Builtins}.

Lemma zh_week_match_at (prev : option cp) (s : str) (m : rematch) :
  match_at false zh_week_pattern prev s = Some m ->
  exists flag c,
    (flag = u "本周" \/ flag = u "下周") /\
    group m 1 = Some flag /\
    m_text m = flag ++ [c] /\
    In c (u "一二三四五六日天").
Proof.
  unfold match_at.
  let r := eval vm_compute in zh_week_pattern in change zh_week_pattern with r.
  destruct s as [|a [|b [|c rest]]]; cbn [rmatch cs_match char_eq].
  - discriminate.
  - repeat (destruct (_ =? _)%N; try discriminate).
  - repeat (destruct (_ =? _)%N; try discriminate).
  - change (take (length (a :: b :: c :: rest) - length rest) (a :: b :: c :: rest))
      with (take (length ([a; b; c] ++ rest) - length rest) ([a; b; c] ++ rest)).
    change (take (length (a :: b :: c :: rest) - length (c :: rest)) (a :: b :: c :: rest))
      with (take (length ([a; b] ++ c :: rest) - length (c :: rest)) ([a; b] ++ c :: rest)).
    rewrite !take_length_diff.
    destruct (existsb _ _) eqn:Hset.
    + assert (Hc : In c (u "一二三四五六日天")).
      { apply existsb_exists in Hset as [x [Hin ->%N.eqb_eq]]. exact Hin. }
      destruct (N.eqb_spec 26412 a) as [<-|_], (N.eqb_spec 21608 b) as [<-|_];
        try destruct (N.eqb_spec 19979 a) as [<-|_]; try discriminate;
        intros [= <-]; eexists _, c; (split; [|split; [reflexivity|split; [reflexivity|exact Hc]]]);
        [left | right]; reflexivity.
    + repeat (destruct (_ =? _)%N; try discriminate).
Qed.

Lemma zh_week_search (prev : option cp) (s : str) (m : rematch) :
  search_from false zh_week_pattern prev s = Some m ->
  exists flag c,
    (flag = u "本周" \/ flag = u "下周") /\
    group m 1 = Some flag /\
    m_text m = flag ++ [c] /\
    In c (u "一二三四五六日天").
Proof.
  revert prev. induction s as [|x s IH]; intros prev; cbn [search_from].
  - destruct (match_at false zh_week_pattern prev []) eqn:Hm; [|discriminate].
    intros [= <-]. now apply zh_week_match_at in Hm.
  - destruct (match_at false zh_week_pattern prev (x :: s)) eqn:Hm.
    + intros [= <-]. now apply zh_week_match_at in Hm.
    + apply IH.
Qed.

Lemma weekday_map_lookup (c : cp) :
  In c (u "一二三四五六日天") ->
  exists t, snd <$> List.find (fun entry => (fst entry =? c)%N) weekday_map = Some t /\
            0 <= t <= 6.
Proof.
  intros Hin. vm_compute in Hin.
  repeat (destruct Hin as [<-|Hin]; [eexists; split; [vm_compute; reflexivity | lia]|]).
  destruct Hin.
Qed.

End ChineseWeek.

Lemma Substring_contains_trans (w x s : str) :
  contains w x = true -> contains x s = true -> contains w s = true.
Proof.
  rewrite !contains_spec. intros [a [b ->]] [a' [b' ->]].
  exists (a' ++ a), (b ++ b'). now rewrite <- !app_assoc.
Qed.

(** [match.group(0)[2]] of a match of [zh_week_pattern] is its weekday
    character. *)
Lemma third_of_week_match (flag : str) (c : cp) :
  flag = u "本周" \/ flag = u "下周" ->
  @lookup nat N (list cp) (@list_lookup cp) 2%nat (flag ++ [c]) = Some c.
Proof. intros [-> | ->]; reflexivity. Qed.

Section OtherCues.
Context `{B : Builtins}.

(** The base date is the current date moved ahead by at most 13 days, or
    there is none; finding it never raises. *)
Lemma relative_base_cases (now : datetime) (text : str) :
  relative_base now text = Ok None \/
  exists delta, 0 <= delta <= 13 /\ relative_base now text = Ok (Some (add_days now delta)).
Proof.
  pose proof (weekday_range now) as Hnow.
  cbv beta zeta delta [relative_base].
  assert (Hzero : add_days now 0 = now).
  { destruct now. unfold add_days. simpl. f_equal. lia. }
  destruct (_ || _); [right; exists 0; split; [lia | now rewrite Hzero]|].
  destruct (_ || _); [right; exists 1; split; [lia | reflexivity]|].
  destruct (_ || _); [right; exists 2; split; [lia | reflexivity]|].
  destruct (contains (u "next") (py_lower text)).
  - destruct (List.find _ weekday_map_en) as [[day_name day_num]|] eqn:Hfind.
    + pose proof (weekday_map_en_range _ _ _ Hfind) as Hday.
      right. eexists. split; [|reflexivity].
      pose proof (Z.mod_pos_bound (day_num - weekday now + 7) 7).
      destruct (Z.eqb_spec ((day_num - weekday now + 7) mod 7) 0); lia.
    + repeat (destruct (_ || _);
              [right; eexists; split; [|reflexivity]; lia|]).
      now left.
  - destruct (re_search false zh_week_pattern text) as [m|] eqn:Hsearch; [|now left].
    apply zh_week_search in Hsearch as (flag & c & Hflag & Hgroup & Htext & Hc).
    apply weekday_map_lookup in Hc as (t & Hlookup & Ht).
    rewrite Hgroup, Htext. cbn [default from_option]. unfold id.
    rewrite (third_of_week_match flag c Hflag), Hlookup.
    right. eexists. split; [|reflexivity].
    destruct (str_eqb flag (u "本周")); [destruct (Z.ltb_spec (t - weekday now) 0)|]; lia.
Qed.

(** X9. A due date that the relative-date pass returns lies between the
    current date and 13 days after it, never before today, and has a valid
    time of day with zero seconds and microseconds. *)
Theorem relative_date_within_two_weeks (now : datetime) (text : str) (due : datetime) :
  _parse_relative_date now text = Ok (Some due) ->
  dt_day now <= dt_day due <= dt_day now + 13 /\
  0 <= dt_hour due <= 23 /\ 0 <= dt_minute due <= 59 /\
  dt_second due = 0 /\ dt_microsecond due = 0.
Proof.
  unfold _parse_relative_date.
  destruct (relative_base_cases now text) as [-> | (delta & Hdelta & ->)];
    cbn [obind]; [discriminate|].
  assert (Hreplace : forall h m d,
            obind (replace_time (add_days now delta) h m) (fun d => Ok (Some d)) = Ok (Some d) ->
            dt_day now <= dt_day d <= dt_day now + 13 /\
            0 <= dt_hour d <= 23 /\ 0 <= dt_minute d <= 59 /\
            dt_second d = 0 /\ dt_microsecond d = 0).
  { intros h m d. unfold replace_time.
    destruct (_ && _) eqn:Hrange; simpl; [|discriminate].
    intros [= <-]. simpl. rewrite !andb_true_iff in Hrange. lia. }
  destruct (_parse_time_hint text) as [[hour minute]|]; apply Hreplace.
Qed.

(** X10. On a clock reading at least thirteen days before
    [datetime.max], where day arithmetic cannot overflow, the relative-date
    pass raises only [ValueError], and it does so exactly when the text has
    a date cue and a time of day with an hour outside 0..23 or a minute
    outside 0..59. *)
Theorem relative_date_raises_only_value_error (now : datetime) (text : str) (e : exn) :
  clock_in_range now ->
  (_parse_relative_date now text = Raise e <->
  e = ValueError /\
  relative_base now text <> Ok None /\
  exists hour minute,
    _parse_time_hint text = Some (hour, minute) /\ time_in_range hour minute = false).
Proof.
  intros _. unfold _parse_relative_date.
  destruct (relative_base_cases now text) as [-> | (delta & Hdelta & ->)]; cbn [obind].
  - split; [discriminate | intros (_ & Hne & _); now destruct Hne].
  - destruct (_parse_time_hint text) as [[hour minute]|]; unfold replace_time.
    + fold (time_in_range hour minute).
      destruct (time_in_range hour minute) eqn:Hrange; simpl.
      * split; [discriminate|]. intros (_ & _ & h & m & [= <- <-] & Hout). congruence.
      * split.
        -- intros [= <-]. split; [reflexivity|]. split; [discriminate|]. now exists hour, minute.
        -- now intros (-> & _).
    + simpl. split; [discriminate|]. now intros (_ & _ & h & m & Hnone & _).
Qed.

(** X11. The cues are tried in a fixed order, and the English "day after
    tomorrow" contains "tomorrow", which is tried before it: a text with
    "day after tomorrow" (in any case) and no cue for today resolves to
    tomorrow, one day ahead, whatever else it says. *)
Theorem day_after_tomorrow_is_tomorrow (now : datetime) (text : str) :
  has_today_cue text = false ->
  contains (u "day after tomorrow") (py_lower text) = true ->
  relative_base now text = Ok (Some (add_days now 1)).
Proof.
  intros Htoday Hphrase.
  assert (Htomorrow : contains (u "tomorrow") (py_lower text) = true).
  { apply Substring_contains_trans with (u "day after tomorrow"); [reflexivity | exact Hphrase]. }
  cbv beta zeta delta [relative_base]. unfold has_today_cue in Htoday.
  now rewrite Htoday, Htomorrow, orb_true_r.
Qed.

(** X12. "本周X" and "下周X".  With [monday] the Monday of the week of the
    current date, "下周X" resolves to weekday X of the following week; "本周X"
    resolves to weekday X of this week when X is today or still to come, and
    otherwise to weekday X of the following week, the date "下周X" gives. *)
Theorem zh_week_resolution (now : datetime) (text flag : str) (target : Z) :
  zh_week_input text flag target ->
  let monday := dt_day now - weekday now in
  exists base,
    relative_base now text = Ok (Some base) /\
    weekday base = target /\
    dt_day now <= dt_day base /\
    (flag = u "下周" -> dt_day base = monday + 7 + target) /\
    (flag = u "本周" ->
     dt_day base = if target <? weekday now then monday + 7 + target else monday + target).
Proof.
  intros (Hcue & Hnext & m & c & Hsearch & Hgroup & Htext & Hlookup) monday.
  pose proof (weekday_range now) as Hnow.
  pose proof (zh_week_search _ _ _ Hsearch) as (flag' & c' & Hflag & Hgroup' & Htext' & Hc').
  assert (flag' = flag) by congruence. subst flag'.
  assert (c' = c) by (rewrite Htext in Htext'; now apply app_inj_tail in Htext' as [_ ->]).
  subst c'.
  apply weekday_map_lookup in Hc' as (t & Hlookup' & Ht).
  assert (t = target) by congruence. subst t.
  unfold has_day_cue in Hcue. cbv zeta in Hcue. rewrite !orb_false_iff in Hcue.
  destruct Hcue as [[[H1 H2] [H3 H4]] [H5 H6]].
  assert (Hbase : relative_base now text
            = Ok (Some (add_days now
                (if str_eqb flag (u "本周")
                 then (if target - weekday now <? 0
                       then target - weekday now + 7 else target - weekday now)
                 else target - weekday now + 7)))).
  { cbv beta zeta delta [relative_base].
    rewrite H1, H2, H3, H4, H5, H6, Hnext, Hsearch, Hgroup, Htext.
    cbn [orb default from_option]. unfold id.
    now rewrite (third_of_week_match flag c Hflag), Hlookup. }
  eexists. split; [exact Hbase|].
  subst monday. unfold weekday in *. cbn [dt_day add_days].
  destruct Hflag as [-> | ->].
  - change (str_eqb (u "本周") (u "本周")) with true. cbv iota.
    split; [|split; [|split]].
    + destruct (Z.ltb_spec (target - (dt_day now + 6) mod 7) 0);
        Z.div_mod_to_equations; lia.
    + destruct (Z.ltb_spec (target - (dt_day now + 6) mod 7) 0); lia.
    + intros Heq. vm_compute in Heq. discriminate Heq.
    + intros _.
      destruct (Z.ltb_spec (target - (dt_day now + 6) mod 7) 0),
               (Z.ltb_spec target ((dt_day now + 6) mod 7)); lia.
  - change (str_eqb (u "下周") (u "本周")) with false. cbv iota.
    split; [|split; [|split]].
    + Z.div_mod_to_equations; lia.
    + lia.
    + intros _. lia.
    + intros Heq. vm_compute in Heq. discriminate Heq.
Qed.

End OtherCues.

(** ** Construction of the service *)

Section ConstructionProperties.
Context `{B : Builtins}.

Lemma no_provider_answers (title task_description text : str) (description : option str)
    (now : datetime) :
  snd (parse_natural_language (mkService []) now text) = parse_fallback now text /\
  snd (suggest_tags (mkService []) title description) = _get_fallback_tags title description /\
  snd (breakdown_task (mkService []) task_description)
  = [u "准备 " ++ task_description; u "执行 " ++ task_description;
     u "完成 " ++ task_description] /\
  snd (recommend_priority (mkService []) title description)
  = _get_fallback_priority title description.
Proof. repeat split. Qed.

(** X13. A provider mode other than "openai", "google" and "auto" (in any
    case), or the absence of both keys, leaves the service without
    providers, whatever the constructors would do; the four operations then
    give the extractor's answers. *)
Theorem init_without_providers (settings : Settings)
    (OpenAIProvider GoogleAIProvider : str -> outcome (AIProvider * bool)) :
  str_in (py_lower (ai_provider settings)) (map u ["openai"; "google"; "auto"]) = false \/
  (openai_api_key settings = [] /\ google_ai_api_key settings = []) ->
  AIService_init settings OpenAIProvider GoogleAIProvider
  = ([WarnNoProviders], mkService []) /\
  forall (now : datetime) (text title task_description : str) (description : option str),
    let self := snd (AIService_init settings OpenAIProvider GoogleAIProvider) in
    snd (parse_natural_language self now text) = parse_fallback now text /\
    snd (suggest_tags self title description) = _get_fallback_tags title description /\
    snd (breakdown_task self task_description)
    = [u "准备 " ++ task_description; u "执行 " ++ task_description;
       u "完成 " ++ task_description] /\
    snd (recommend_priority self title description)
    = _get_fallback_priority title description.
Proof.
  intros Hnone.
  assert (Hinit : AIService_init settings OpenAIProvider GoogleAIProvider
                  = ([WarnNoProviders], mkService [])).
  { unfold AIService_init. cbv zeta.
    destruct Hnone as [Hmode | [Hk1 Hk2]].
    - cbn [str_in existsb map] in Hmode. rewrite !orb_false_iff in Hmode.
      destruct Hmode as (Ho & Hg & Ha & _).
      cbn [str_in existsb map]. now rewrite Ho, Hg, Ha.
    - rewrite Hk1, Hk2. cbn [is_nil negb].
      now destruct (str_in _ _), (str_in _ _). }
  split; [exact Hinit|]. intros now text title task_description description self.
  subst self. rewrite Hinit. apply no_provider_answers.
Qed.

(** X14. There is no failover between the providers at construction: in
    the mode "openai" the constructor of the Google provider has no effect
    on the service, and in the mode "google" that of the OpenAI provider has
    none; in each of these modes at most one provider is loaded. *)
Theorem init_single_provider_mode (settings : Settings)
    (OpenAIProvider GoogleAIProvider other : str -> outcome (AIProvider * bool)) :
  (py_lower (ai_provider settings) = u "openai" ->
   AIService_init settings OpenAIProvider GoogleAIProvider
   = AIService_init settings OpenAIProvider other /\
   (length (providers (snd (AIService_init settings OpenAIProvider GoogleAIProvider))) <= 1)%nat) /\
  (py_lower (ai_provider settings) = u "google" ->
   AIService_init settings OpenAIProvider GoogleAIProvider
   = AIService_init settings other GoogleAIProvider /\
   (length (providers (snd (AIService_init settings OpenAIProvider GoogleAIProvider))) <= 1)%nat).
Proof.
  unfold AIService_init. cbv zeta. split; intros ->.
  - change (str_in (u "openai") (map u ["openai"; "auto"])) with true.
    change (str_in (u "openai") (map u ["google"; "auto"])) with false.
    cbv iota. split; [reflexivity|].
    destruct (negb _); [|cbn; lia].
    destruct (OpenAIProvider _) as [[p [|]]|e]; cbn; lia.
  - change (str_in (u "google") (map u ["openai"; "auto"])) with false.
    change (str_in (u "google") (map u ["google"; "auto"])) with true.
    cbv iota. split; [reflexivity|].
    destruct (negb _); [|cbn; lia].
    destruct (GoogleAIProvider _) as [[p [|]]|e]; cbn; lia.
Qed.

(** X15. In the mode "auto" with both keys set and both constructors
    returning an available provider, the service holds the OpenAI provider
    first and the Google provider second: [suggest_tags] returns a
    non-empty answer of OpenAI without asking Google, and a non-empty
    answer of Google when OpenAI raises. *)
Theorem init_auto_order (settings : Settings)
    (OpenAIProvider GoogleAIProvider : str -> outcome (AIProvider * bool))
    (openai google : AIProvider) :
  py_lower (ai_provider settings) = u "auto" ->
  openai_api_key settings <> [] ->
  google_ai_api_key settings <> [] ->
  OpenAIProvider (openai_api_key settings) = Ok (openai, true) ->
  GoogleAIProvider (google_ai_api_key settings) = Ok (google, true) ->
  AIService_init settings OpenAIProvider GoogleAIProvider
  = ([InfoLoaded "OpenAI"; InfoLoaded "Google AI"], mkService [openai; google]) /\
  forall title description,
    let self := snd (AIService_init settings OpenAIProvider GoogleAIProvider) in
    (forall r,
       p_suggest_tags openai title description = Ok r -> r <> [] ->
       suggest_tags self title description
       = ([LogSuccess (class_name openai) "suggest_tags"], r)) /\
    (forall e r,
       p_suggest_tags openai title description = Raise e ->
       p_suggest_tags google title description = Ok r -> r <> [] ->
       suggest_tags self title description
       = ([LogFailure (class_name openai) "suggest_tags" e;
           LogSuccess (class_name google) "suggest_tags"], r)).
Proof.
  intros Hmode Hk1 Hk2 Ho Hg.
  assert (Hinit : AIService_init settings OpenAIProvider GoogleAIProvider
            = ([InfoLoaded "OpenAI"; InfoLoaded "Google AI"], mkService [openai; google])).
  { unfold AIService_init. cbv zeta. rewrite Hmode.
    change (str_in (u "auto") (map u ["openai"; "auto"])) with true.
    change (str_in (u "auto") (map u ["google"; "auto"])) with true.
    cbv iota. rewrite Ho, Hg.
    destruct (openai_api_key settings); [contradiction|].
    destruct (google_ai_api_key settings); [contradiction|]. reflexivity. }
  split; [exact Hinit|]. intros title description self. subst self. rewrite Hinit.
  unfold suggest_tags, _try_providers. cbn [snd providers try_loop]. split.
  - intros r Hr Hne. rewrite Hr. destruct r; [contradiction | reflexivity].
  - intros e r He Hr Hne. rewrite He, Hr. destruct r; [contradiction | reflexivity].
Qed.

End ConstructionProperties.

(** ** The ends of a cleaned title *)

Section TitleEnds.
Context `{B : Builtins}.

Lemma lstrip_head (s : str) (c : cp) (r : str) :
  lstrip s = c :: r -> py_isspace c = false.
Proof.
  induction s as [|x s IH]; simpl; [discriminate|].
  destruct (py_isspace x) eqn:Hx; [exact IH|]. now intros [= <- _].
Qed.

Lemma lstrip_suffix (s : str) : exists ws, s = ws ++ lstrip s.
Proof.
  induction s as [|x s [ws IH]]; simpl; [now exists []|].
  destruct (py_isspace x); [|now exists []].
  exists (x :: ws). simpl. now rewrite <- IH.
Qed.

Lemma strip_ends (s : str) :
  (forall c r, strip s = c :: r -> py_isspace c = false) /\
  (forall pre c, strip s = pre ++ [c] -> py_isspace c = false).
Proof.
  unfold strip. split.
  - intros c r Hstrip.
    destruct (lstrip_suffix (rev (lstrip s))) as [ws Hws].
    apply (f_equal (@rev cp)) in Hws. rewrite rev_involutive, rev_app_distr, Hstrip in Hws.
    simpl in Hws. now apply lstrip_head in Hws.
  - intros pre c Hstrip.
    apply (f_equal (@rev cp)) in Hstrip.
    rewrite rev_involutive, rev_app_distr in Hstrip. simpl in Hstrip.
    now apply lstrip_head in Hstrip.
Qed.

(** X16. A cleaned title is either the input as it was given or a
    non-empty string that neither starts nor ends with whitespace. *)
Theorem clean_title_is_input_or_trimmed (text : str) :
  _clean_title text = text \/
  (_clean_title text <> [] /\
   (forall c r, _clean_title text = c :: r -> py_isspace c = false) /\
   (forall pre c, _clean_title text = pre ++ [c] -> py_isspace c = false)).
Proof.
  unfold _clean_title. destruct (erase_markers text) as [|c0 r0] eqn:Herase; [now left|].
  right. cbn [is_nil]. rewrite <- Herase. split; [rewrite Herase; discriminate|].
  unfold erase_markers. apply strip_ends.
Qed.

End TitleEnds.

(** ** Punctuation *)

Section Substitution.
Context `{B : Builtins}.

(** A substitution adds no character besides those of the replacement. *)
Lemma sub_from_chars (ic : bool) (r : regex) (repl : str) (s : str) :
  forall (prev : option cp) (skip : nat) (c : cp),
    In c (sub_from ic r repl prev s skip) -> In c s \/ In c repl.
Proof.
  induction s as [|x s IH]; intros prev skip c; destruct skip as [|n]; cbn [sub_from].
  - destruct (match_at ic r prev []); [rewrite app_nil_r|]; auto.
  - auto.
  - destruct (match_at ic r prev (x :: s)) as [m|].
    + rewrite in_app_iff. intros [Hrepl|Hrest]; [now right|].
      destruct (length (m_text m)).
      * destruct Hrest as [<-|Hrest]; [left; now left|].
        apply IH in Hrest as [Hs|Hrepl]; [left; now right | now right].
      * apply IH in Hrest as [Hs|Hrepl]; [left; now right | now right].
    + intros [<-|Hrest]; [left; now left|].
      apply IH in Hrest as [Hs|Hrepl]; [left; now right | now right].
  - intros Hrest. apply IH in Hrest as [Hs|Hrepl]; [left; now right | now right].
Qed.

(** Erasing the matches of a character class removes every character of
    the class. *)
Lemma sub_class_erases (ic : bool) (cs : charset) (s : str) :
  forall (prev : option cp) (c : cp),
    In c (sub_from ic (Chr cs) [] prev s 0) -> cs_match ic cs c = false.
Proof.
  induction s as [|x s IH]; intros prev c; cbn [sub_from].
  - destruct (match_at ic (Chr cs) prev []); intros [].
  - unfold match_at. cbn [rmatch].
    destruct (cs_match ic cs x) eqn:Hx.
    + change (take (length (x :: s) - length s) (x :: s))
        with (take (length ([x] ++ s) - length s) ([x] ++ s)).
      rewrite take_length_diff. cbn [m_text length app]. apply IH.
    + intros [<-|Hrest]; [exact Hx | now apply IH in Hrest].
Qed.

Lemma strip_chars (s : str) (c : cp) : In c (strip s) -> In c s.
Proof.
  unfold strip. intros Hin%in_rev.
  destruct (lstrip_suffix (rev (lstrip s))) as [ws Hws].
  assert (Hrev : In c (rev (lstrip s))) by (rewrite Hws, in_app_iff; now right).
  apply in_rev in Hrev. destruct (lstrip_suffix s) as [ws' Hws'].
  rewrite Hws', in_app_iff. now right.
Qed.

(** A character of the title that the erasures leave is a space or a
    character the punctuation pattern does not match. *)
Lemma erase_markers_chars (text : str) (c : cp) :
  In c (erase_markers text) ->
  c = 32%N \/ cs_match true (CSet (u "，,。.!！")) c = false.
Proof.
  unfold erase_markers. intros Hin%strip_chars.
  apply sub_from_chars in Hin as [Hin|[]].
  apply sub_from_chars in Hin as [Hin|[<-|[]]]; [|now left].
  right.
  change cleanup_patterns
    with (firstn 12 cleanup_patterns ++ [Chr (CSet (u "，,。.!！"))]) in Hin.
  rewrite fold_left_app in Hin. cbn [fold_left] in Hin.
  now apply sub_class_erases in Hin.
Qed.

End Substitution.

(** X17. A cleaned title that is not the input as it was given contains
    none of the punctuation marks "，", ",", "。", ".", "!" and "！",
    wherever they stood in the input (between digits as well). *)
Theorem clean_title_drops_punctuation (text : str) (c : cp) :
  _clean_title text <> text ->
  In c (_clean_title text) ->
  ~ In c (u "，,。.!！").
Proof.
  unfold _clean_title. destruct (erase_markers text) eqn:Herase; [now intros []|].
  cbn [is_nil]. intros _ Hin Hpunct. rewrite <- Herase in Hin.
  apply erase_markers_chars in Hin as [-> | Hno].
  - vm_compute in Hpunct. repeat (destruct Hpunct as [Hp|Hpunct]; [discriminate Hp|]).
    destruct Hpunct.
  - assert (Hyes : cs_match true (CSet (u "，,。.!！")) c = true).
    { cbn [cs_match]. apply existsb_exists. exists c. split; [exact Hpunct|].
      cbn [char_eq py_caseless cpython_tables]. apply N.eqb_refl. }
    congruence.
Qed.

Lemma clean_title_drops_punctuation_witness :
  _clean_title (u "Call Bob, room 5.30!") = u "Call Bob room 530" /\
  _clean_title (u "Call Bob, room 5.30!") <> u "Call Bob, room 5.30!" /\
  In 53%N (_clean_title (u "Call Bob, room 5.30!")) /\
  ~ In 53%N (u "，,。.!！").
Proof.
  assert (Hne : _clean_title (u "Call Bob, room 5.30!") <> u "Call Bob, room 5.30!")
    by (vm_compute; discriminate).
  assert (Hin : In 53%N (_clean_title (u "Call Bob, room 5.30!")))
    by (vm_compute; tauto).
  split; [vm_compute; reflexivity|]. split; [exact Hne|]. split; [exact Hin|].
  exact (clean_title_drops_punctuation (u "Call Bob, room 5.30!") 53%N Hne Hin).
Defined.

(** ** Runs of the further properties *)

(** "feed the cat" has no keyword of any category. *)
Lemma fallback_tags_default_is_work_witness :
  any_in category_keywords (content_of (u "feed the cat") None) = false /\
  _get_fallback_tags (u "feed the cat") None = [u "Work"].
Proof.
  assert (Hnone : any_in category_keywords (content_of (u "feed the cat") None) = false)
    by (vm_compute; reflexivity).
  split; [exact Hnone|].
  exact (fallback_tags_default_is_work (u "feed the cat") None Hnone).
Defined.

(** "latest" contains "test". *)
Lemma fallback_tags_test_is_study_witness :
  contains (u "test") (content_of (u "ship the latest build") None) = true /\
  exists first rest,
    _get_fallback_tags (u "ship the latest build") None = first :: u "Study" :: rest /\
    In first (map u ["Meeting"; "Code"; "Review"; "Project"; "Report"; "Work"]).
Proof.
  assert (Htest : contains (u "test") (content_of (u "ship the latest build") None) = true)
    by (vm_compute; reflexivity).
  split; [exact Htest|].
  exact (fallback_tags_test_is_study (u "ship the latest build") None Htest).
Defined.

(** "不高不低" has both "高" and "低". *)
Lemma normalize_priority_fuzzy_order_witness :
  (py_truthy (PStr (u "不高不低")) = true /\
   contains (u "高") (normalized_text (PStr (u "不高不低"))) = true /\
   contains (u "低") (normalized_text (PStr (u "不高不低"))) = true) /\
  _normalize_priority (PStr (u "不高不低")) = Some (u "high").
Proof.
  assert (Hhigh : contains (u "高") (normalized_text (PStr (u "不高不低"))) = true)
    by (vm_compute; reflexivity).
  split; [repeat split; vm_compute; reflexivity|].
  exact (proj1 (proj2 (normalize_priority_fuzzy_order (PStr (u "不高不低")))) eq_refl Hhigh).
Defined.

(** The first provider raises, the second names a title and a priority. *)
Lemma parse_keeps_provider_fields_witness :
  let self := mkService [failing_provider "OpenAIProvider";
                         opinionated_provider "GoogleAIProvider" (u "HIGH")] in
  let r : pydict := {["title" := PStr (u "buy milk"); "priority" := PStr (u "HIGH")]} in
  (first_success (fun p => p_parse_natural_language p (u "buy milk")) (providers self) r /\
   dict_truthy r = true) /\
  exists d,
    snd (parse_natural_language self sample_now (u "buy milk")) = Ok d /\
    (forall k : string, k <> "priority"%string -> d !! k = r !! k) /\
    exists s, d !! "priority" = Some (PStr s) /\ s <> [].
Proof.
  intros self r.
  assert (Hfirst : first_success (fun p => p_parse_natural_language p (u "buy milk"))
                     (providers self) r).
  { exists [failing_provider "OpenAIProvider"],
           (opinionated_provider "GoogleAIProvider" (u "HIGH")), [].
    split; [reflexivity|]. split; [|reflexivity].
    repeat constructor. eexists. reflexivity. }
  assert (Htruthy : dict_truthy r = true) by (vm_compute; reflexivity).
  split; [now split|].
  exact (parse_keeps_provider_fields self sample_now (u "buy milk") r Hfirst Htruthy).
Defined.

(** The provider names a title and no priority. *)
Lemma parse_blank_priority_is_medium_witness :
  let self := mkService [terse_provider "OpenAIProvider"] in
  let r : pydict := {["title" := PStr (u "buy milk")]} in
  (first_success (fun p => p_parse_natural_language p (u "buy milk")) (providers self) r /\
   dict_truthy r = true /\
   fst (_get_fallback_priority (u "buy milk") None) = MEDIUM /\
   blank_value (dict_get r "priority") = true) /\
  exists d,
    snd (parse_natural_language self sample_now (u "buy milk")) = Ok d /\
    d !! "priority" = Some (PStr (u "medium")).
Proof.
  intros self r.
  assert (Hfirst : first_success (fun p => p_parse_natural_language p (u "buy milk"))
                     (providers self) r).
  { exists [], (terse_provider "OpenAIProvider"), [].
    split; [reflexivity|]. split; [constructor | reflexivity]. }
  assert (Htruthy : dict_truthy r = true) by (vm_compute; reflexivity).
  assert (Hscan : fst (_get_fallback_priority (u "buy milk") None) = MEDIUM)
    by (vm_compute; reflexivity).
  assert (Hblank : blank_value (dict_get r "priority") = true) by (vm_compute; reflexivity).
  split; [repeat split; assumption|].
  exact (parse_blank_priority_is_medium self sample_now (u "buy milk") r
           Hfirst Htruthy Hscan Hblank).
Defined.

(** The only provider raises. *)
Lemma parse_fallback_dictionary_witness :
  let self := mkService [failing_provider "OpenAIProvider"] in
  let d := fallback_dict (u "buy milk") MEDIUM (Some (mkDatetime 740000 23 59 0 0)) in
  (all_raise (fun p => p_parse_natural_language p (u "buy milk tomorrow")) (providers self) /\
   snd (parse_natural_language self sample_now (u "buy milk tomorrow")) = Ok d) /\
  dom d = list_to_set ["title"; "description"; "priority"; "due_date"; "tags"]%string /\
  d !! "title" = Some (PStr (_clean_title (u "buy milk tomorrow"))) /\
  d !! "description" = Some PNone /\
  d !! "tags" = Some (PList []) /\
  exists priority, d !! "priority" = Some (PStr (priority_value priority)).
Proof.
  intros self d.
  assert (Hall : all_raise (fun p => p_parse_natural_language p (u "buy milk tomorrow"))
                   (providers self)).
  { repeat constructor. eexists. reflexivity. }
  assert (Hparse : snd (parse_natural_language self sample_now (u "buy milk tomorrow")) = Ok d)
    by (vm_compute; reflexivity).
  split; [now split|].
  exact (parse_fallback_dictionary self sample_now (u "buy milk tomorrow") d Hall Hparse).
Defined.

(** "下周日", read on a Monday, is 13 days ahead. *)
Lemma relative_date_within_two_weeks_witness :
  _parse_relative_date sample_now (u "下周日交报告")
  = Ok (Some (mkDatetime (dt_day sample_now + 13) 23 59 0 0)) /\
  dt_day sample_now <= dt_day sample_now + 13 <= dt_day sample_now + 13.
Proof.
  assert (Hdate : _parse_relative_date sample_now (u "下周日交报告")
                  = Ok (Some (mkDatetime (dt_day sample_now + 13) 23 59 0 0)))
    by (vm_compute; reflexivity).
  split; [exact Hdate|].
  exact (proj1 (relative_date_within_two_weeks sample_now (u "下周日交报告") _ Hdate)).
Defined.

(** "10:30 am" is read as hour 30, which [replace] refuses. *)
Lemma relative_date_raises_only_value_error_witness :
  clock_in_range sample_now /\
  _parse_relative_date sample_now (u "tomorrow 10:30 am") = Raise ValueError.
Proof.
  assert (Hclock : clock_in_range sample_now) by (unfold clock_in_range, max_ordinal; simpl; lia).
  split; [exact Hclock|].
  apply (proj2 (relative_date_raises_only_value_error sample_now (u "tomorrow 10:30 am")
                  ValueError Hclock)).
  split; [reflexivity|]. split; [vm_compute; discriminate|].
  exists 30, 0. split; vm_compute; reflexivity.
Defined.

(** The phrase in capitals. *)
Lemma day_after_tomorrow_is_tomorrow_witness :
  (has_today_cue (u "The Day After Tomorrow") = false /\
   contains (u "day after tomorrow") (py_lower (u "The Day After Tomorrow")) = true) /\
  relative_base sample_now (u "The Day After Tomorrow") = Ok (Some (add_days sample_now 1)).
Proof.
  assert (Htoday : has_today_cue (u "The Day After Tomorrow") = false)
    by (vm_compute; reflexivity).
  assert (Hphrase : contains (u "day after tomorrow")
                      (py_lower (u "The Day After Tomorrow")) = true)
    by (vm_compute; reflexivity).
  split; [now split|].
  exact (day_after_tomorrow_is_tomorrow sample_now (u "The Day After Tomorrow") Htoday Hphrase).
Defined.

(** "本周一", read on a Friday, is the Monday of the following week. *)
Lemma zh_week_resolution_witness :
  zh_week_input (u "本周一交报告") (u "本周") 0 /\
  exists base,
    relative_base sample_friday (u "本周一交报告") = Ok (Some base) /\
    weekday base = 0 /\
    dt_day sample_friday <= dt_day base /\
    (u "本周" = u "下周" -> dt_day base = dt_day sample_friday - weekday sample_friday + 7 + 0) /\
    (u "本周" = u "本周" ->
     dt_day base = if 0 <? weekday sample_friday
                   then dt_day sample_friday - weekday sample_friday + 7 + 0
                   else dt_day sample_friday - weekday sample_friday + 0).
Proof.
  assert (Hinput : zh_week_input (u "本周一交报告") (u "本周") 0).
  { split; [vm_compute; reflexivity|]. split; [vm_compute; reflexivity|].
    eexists _, _. split; [vm_compute; reflexivity|].
    split; [reflexivity|]. split; reflexivity. }
  split; [exact Hinput|].
  exact (zh_week_resolution sample_friday (u "本周一交报告") (u "本周") 0 Hinput).
Defined.

(** A mode that is none of the three. *)
Lemma init_without_providers_witness :
  let settings := mkSettings (u "sk-1") (u "g-2") (u "anthropic") in
  let make := fun name (_ : str) => Ok (terse_provider name, true) in
  str_in (py_lower (ai_provider settings)) (map u ["openai"; "google"; "auto"]) = false /\
  AIService_init settings (make "OpenAIProvider") (make "GoogleAIProvider")
  = ([WarnNoProviders], mkService []).
Proof.
  intros settings make.
  assert (Hmode : str_in (py_lower (ai_provider settings))
                    (map u ["openai"; "google"; "auto"]) = false)
    by (vm_compute; reflexivity).
  split; [exact Hmode|].
  exact (proj1 (init_without_providers settings (make "OpenAIProvider")
                  (make "GoogleAIProvider") (or_introl Hmode))).
Defined.

(** Both providers load; OpenAI raises on the request and Google answers. *)
Lemma init_auto_order_witness :
  let OpenAIProvider := fun _ : str => Ok (failing_provider "OpenAIProvider", true) in
  let GoogleAIProvider :=
    fun _ : str => Ok (opinionated_provider "GoogleAIProvider" (u "low"), true) in
  AIService_init sample_settings OpenAIProvider GoogleAIProvider
  = ([InfoLoaded "OpenAI"; InfoLoaded "Google AI"],
     mkService [failing_provider "OpenAIProvider";
                opinionated_provider "GoogleAIProvider" (u "low")]) /\
  suggest_tags (snd (AIService_init sample_settings OpenAIProvider GoogleAIProvider))
    (u "buy milk") None
  = ([LogFailure "OpenAIProvider" "suggest_tags" (ProviderFailure "tags");
      LogSuccess "GoogleAIProvider" "suggest_tags"], [u "Work"]).
Proof.
  intros OpenAIProvider GoogleAIProvider.
  assert (Hk1 : openai_api_key sample_settings <> []) by (vm_compute; discriminate).
  assert (Hk2 : google_ai_api_key sample_settings <> []) by (vm_compute; discriminate).
  assert (Hne : [u "Work"] <> ([] : list str)) by discriminate.
  pose proof (init_auto_order sample_settings OpenAIProvider GoogleAIProvider
                (failing_provider "OpenAIProvider")
                (opinionated_provider "GoogleAIProvider" (u "low"))
                eq_refl Hk1 Hk2 eq_refl eq_refl) as [Hinit Hask].
  split; [exact Hinit|].
  exact (proj2 (Hask (u "buy milk") None) (ProviderFailure "tags") [u "Work"]
           eq_refl eq_refl Hne).
Defined.
